(** * garmin-to-notion: the daily-steps synchroniser

    A shallow embedding of [daily-steps.py]: the Garmin login with its
    token cache and second factor, the one-day fetch window, and the
    reconciliation of each fetched record against the Notion database
    (query, then create, update or skip).

    Pure Python code is written as Rocq functions; the calls into the
    collaborators ([garminconnect], [notion_client], the clock, the
    terminal) are the operations of a small free monad [prog], which an
    interpreter runs against a model of the outside world while logging
    every call that the program makes. *)

From Stdlib Require Import ZArith Bool List Lia.
From Stdlib Require Import Floats.SpecFloat.
From stdpp Require Import base gmap strings.

Open Scope Z_scope.

(** ** Python floats

    A Python [float] is an IEEE-754 binary64.  It is modelled by the
    Standard Library's specification of binary floating point at
    precision 53 and maximal exponent 1024. *)
Module PyFloat.

Definition prec : Z := 53.
Definition emax : Z := 1024.

Definition float : Type := spec_float.

Definition nan : float := S754_nan.
Definition zero : float := S754_zero false.

Definition is_nan (x : float) : bool :=
  match x with S754_nan => true | _ => false end.

(** [float(n)] for an [int] that a binary64 holds exactly (as the
    literals 1000 and 100 below). *)
Definition of_Z (n : Z) : float := binary_normalize prec emax n 0 false.

(** [x / y] on floats.  A zero divisor raises [ZeroDivisionError] in
    Python; the only divisor in this program is the literal 1000. *)
Definition div (x y : float) : float := SFdiv prec emax x y.

(** [x == y] on floats: IEEE equality, false as soon as one side is NaN. *)
Definition eqb (x y : float) : bool := SFeqb x y.

(** [n == x] for an [int] n and a [float] x: Python compares the exact
    mathematical values. *)
Definition eqb_Z (n : Z) (x : float) : bool :=
  match x with
  | S754_zero _ => n =? 0
  | S754_finite s m e =>
      let sm := if s then Z.neg m else Z.pos m in
      match e with
      | Z.neg p => n * 2 ^ Z.pos p =? sm
      | _ => n =? sm * 2 ^ e
      end
  | _ => false
  end.

(** Nearest integer to [num / den], ties to the even one
    ([0 <= num], [0 < den]). *)
Definition round_half_even (num den : Z) : Z :=
  let q := num / den in
  let r := num mod den in
  match 2 * r ?= den with
  | Lt => q
  | Gt => q + 1
  | Eq => if Z.even q then q else q + 1
  end.

(** [round(x, 2)] on a float (CPython's [float.__round__] with
    [ndigits = 2]): infinities, NaN and zeros round to themselves; a
    finite [x] is rounded, on its exact binary value and ties to even,
    to a decimal with two fractional digits, and the float nearest to
    that decimal is returned, with the sign of [x]. *)
Definition round2 (x : float) : float :=
  match x with
  | S754_finite s m e =>
      let hundredths :=
        match e with
        | Z.neg p => round_half_even (Z.pos m * 100) (2 ^ Z.pos p)
        | _ => Z.pos m * 100 * 2 ^ e
        end in
      match hundredths with
      | Z.pos h => div (S754_finite s h 0) (of_Z 100)
      | _ => S754_zero s
      end
  | _ => x
  end.

End PyFloat.

(** ** Python values that reach a comparison

    The numbers read back from Notion are JSON numbers: [None] (null),
    an [int] or a [float]. *)
Inductive value : Type :=
| VNone
| VInt (n : Z)
| VFloat (x : PyFloat.float).

(** [a == b] *)
Definition py_eq (a b : value) : bool :=
  match a, b with
  | VNone, VNone => true
  | VInt m, VInt n => m =? n
  | VInt m, VFloat y => PyFloat.eqb_Z m y
  | VFloat x, VInt n => PyFloat.eqb_Z n x
  | VFloat x, VFloat y => PyFloat.eqb x y
  | _, _ => false
  end.

(** [a != b] *)
Definition py_ne (a b : value) : bool := negb (py_eq a b).

(** What a Garmin login call hands back in each slot of its pair: the
    marker string ["needs_mfa"], [None], or an object the caller only
    passes on (a token, the state of a pending login). *)
Inductive pyobj : Type :=
| PyStr (s : string)
| PyNone
| PyOpaque (n : nat).

(** [o == s] for a string literal [s] *)
Definition eq_str (o : pyobj) (s : string) : bool :=
  match o with
  | PyStr t => String.eqb t s
  | _ => false
  end.

(** Exceptions.  [KeyboardInterrupt] stands for the classes that derive
    from [BaseException] only; [except Exception] does not catch them. *)
Inductive exn : Type :=
| KeyError (key : string)
| Error (name : string)
| KeyboardInterrupt.

Definition is_Exception (e : exn) : bool :=
  match e with
  | KeyboardInterrupt => false
  | _ => true
  end.

Inductive result (A : Type) : Type :=
| Ok (a : A)
| Err (e : exn).
Arguments Ok {A} a.
Arguments Err {A} e.

(** ** Dates

    A [datetime.date] is kept as its proleptic Gregorian ordinal
    ([date.toordinal()], day 1 is 0001-01-01); adding a [timedelta] adds
    days.  [date.today()] lies far from [date.min] and [date.max], so the
    range check of date arithmetic is left out. *)
Module Date.

Definition date : Type := Z.

(** [d - timedelta(days=n)] *)
Definition sub_days (d : date) (n : Z) : date := d - n.
(** [d + timedelta(days=n)] *)
Definition add_days (d : date) (n : Z) : date := d + n.
(** [(d1 - d2).days] *)
Definition days_between (d1 d2 : date) : Z := d1 - d2.

(** Year, month and day of an ordinal. *)
Definition ymd (d : date) : Z * Z * Z :=
  let z := d + 305 in
  let era := z / 146097 in
  let doe := z mod 146097 in
  let yoe := (doe - doe / 1460 + doe / 36524 - doe / 146096) / 365 in
  let doy := doe - (365 * yoe + yoe / 4 - yoe / 100) in
  let mp := (5 * doy + 2) / 153 in
  let day := doy - (153 * mp + 2) / 5 + 1 in
  let month := if mp <? 10 then mp + 3 else mp - 9 in
  let year := yoe + era * 400 + (if month <=? 2 then 1 else 0) in
  (year, month, day).

Definition digit (n : Z) : string :=
  String (Ascii.ascii_of_N (48 + Z.to_N (n mod 10))) "".

Definition digits2 (n : Z) : string := digit (n / 10) +:+ digit n.
Definition digits4 (n : Z) : string := digits2 (n / 100) +:+ digits2 n.

(** [d.isoformat()] *)
Definition isoformat (d : date) : string :=
  let '(y, m, dd) := ymd d in
  digits4 y +:+ "-" +:+ digits2 m +:+ "-" +:+ digits2 dd.

End Date.

(** ** Data model *)

(** One day of step data as [get_daily_steps] returns it: a dict read
    with [.get], so every field but the date may be [None].  The steps
    and the goal are integers, the distance is metres as a float.  An
    [int] distance of the JSON payload is the float of the same value
    ([PyFloat.of_Z]): up to 2 ^ 53 in magnitude the conversion is exact
    and [n / 1000] is the float quotient [float(n) / 1000.0]. *)
Record DailyStepRecord : Type := {
  calendarDate : string;
  totalSteps : option Z;
  stepGoal : option Z;
  totalDistance : option PyFloat.float
}.

(** [steps.get(k)] for the two integer fields, raw. *)
Definition get_int (field : option Z) : value :=
  match field with
  | Some n => VInt n
  | None => VNone
  end.

(** A Notion property value, by its payload:
    [{"title": [{"text": {"content": c}}]}], [{"date": {"start": d}}],
    [{"number": v}]. *)
Inductive property : Type :=
| Title (content : string)
| Date (start : string)
| Number (number : value).

(** A Notion page object: [page['id']] and [page['properties']].  It
    always carries these two keys, so as a dict it is truthy. *)
Record page : Type := {
  page_id : string;
  properties : gmap string property
}.

(** The filter of a database query: [{"and": [c1, c2, ...]}] over
    conditions [{"property": p, "date": {"equals": d}}] and
    [{"property": p, "title": {"equals": t}}]. *)
Inductive condition : Type :=
| DateEquals (prop : string) (equals : string)
| TitleEquals (prop : string) (equals : string).

Inductive query_filter : Type :=
| And (conditions : list condition).

(** A handle on a [Garmin] client object. *)
Definition garmin : Type := nat.

(** ** Calls into the collaborators *)
Inductive call : Type :=
| Input (prompt : string)
| DateToday
| NewGarmin (email password : option string) (return_on_mfa : bool)
| GarminLogin (g : garmin) (tokenstore : option string)
| GarminResumeLogin (g : garmin) (client_state : pyobj) (mfa_code : string)
| GarthDump (g : garmin) (tokenstore : string)
| GetDailySteps (g : garmin) (cdate_start cdate_end : string)
| DatabasesQuery (database_id : string) (f : query_filter)
| PagesCreate (database_id : string) (props : gmap string property)
| PagesUpdate (page_id : string) (props : gmap string property).

(** What each call returns when it does not raise. *)
Definition response (c : call) : Type :=
  match c with
  | Input _ => string
  | DateToday => Date.date
  | NewGarmin _ _ _ => garmin
  | GarminLogin _ _ => pyobj * pyobj
  | GarminResumeLogin _ _ _ => unit
  | GarthDump _ _ => unit
  | GetDailySteps _ _ _ => list DailyStepRecord
  | DatabasesQuery _ _ => list page
  | PagesCreate _ _ => unit
  | PagesUpdate _ _ => unit
  end.

(** ** Programs

    A program returns, raises, prints a line, or calls a collaborator
    and goes on with what the call returned or raised. *)
Inductive prog (A : Type) : Type :=
| Ret (a : A)
| Raise (e : exn)
| Say (msg : string) (next : prog A)
| Do (c : call) (k : result (response c) -> prog A).
Arguments Ret {A} a.
Arguments Raise {A} e.
Arguments Say {A} msg next.
Arguments Do {A} c k.

Fixpoint bind {A B : Type} (p : prog A) (f : A -> prog B) : prog B :=
  match p with
  | Ret a => f a
  | Raise e => Raise e
  | Say msg next => Say msg (bind next f)
  | Do c k => Do c (fun r => bind (k r) f)
  end.

#[global] Instance prog_ret : MRet prog := @Ret.
#[global] Instance prog_bind : MBind prog := fun A B f p => bind p f.

(** A call whose exception is not handled on the spot. *)
Definition perform (c : call) : prog (response c) :=
  Do c (fun r => match r with Ok v => Ret v | Err e => Raise e end).

(** [print(msg)] *)
Definition print (msg : string) : prog unit := Say msg (Ret tt).

(** A pure computation that may raise. *)
Definition lift {A : Type} (r : result A) : prog A :=
  match r with
  | Ok a => Ret a
  | Err e => Raise e
  end.

(** [try: p  except Exception: h] *)
Fixpoint try_except {A : Type} (p : prog A) (h : prog A) : prog A :=
  match p with
  | Ret a => Ret a
  | Raise e => if is_Exception e then h else Raise e
  | Say msg next => Say msg (try_except next h)
  | Do c k => Do c (fun r => try_except (k r) h)
  end.

(** What an observer of a run sees, in order: the lines printed, the
    calls made and, right after a call that raised, its exception. *)
Inductive event : Type :=
| Printed (msg : string)
| Called (c : call)
| Failed (e : exn).

Definition reported {A : Type} (r : result A) : list event :=
  match r with
  | Ok _ => []
  | Err e => [Failed e]
  end.

(** The outside world: a state and its answer to every call. *)
Record world : Type := {
  state : Type;
  respond : forall c : call, state -> result (response c) * state
}.

Record outcome (W : world) (A : Type) : Type := {
  returned : result A;
  final : state W;
  log : list event
}.
Arguments returned {W A} o.
Arguments final {W A} o.
Arguments log {W A} o.

Fixpoint run_from {W : world} {A : Type} (p : prog A) (s : state W)
    (seen : list event) : outcome W A :=
  match p with
  | Ret a => {| returned := Ok a; final := s; log := seen |}
  | Raise e => {| returned := Err e; final := s; log := seen |}
  | Say msg next => run_from next s (seen ++ [Printed msg])
  | Do c k =>
      let '(r, s') := respond W c s in
      run_from (k r) s' (seen ++ Called c :: reported r)
  end.

Definition run {W : world} {A : Type} (p : prog A) (s : state W) : outcome W A :=
  run_from p s [].

(** The writes to Notion, the prompts at the terminal, the writes to the
    credential store and the fetches from Garmin within a log. *)
Definition is_write (e : event) : bool :=
  match e with
  | Called (PagesCreate _ _) | Called (PagesUpdate _ _) => true
  | _ => false
  end.

Definition is_prompt (e : event) : bool :=
  match e with
  | Called (Input _) => true
  | _ => false
  end.

Definition is_dump (e : event) : bool :=
  match e with
  | Called (GarthDump _ _) => true
  | _ => false
  end.

Definition is_fetch (e : event) : bool :=
  match e with
  | Called (GetDailySteps _ _ _) => true
  | _ => false
  end.

Definition writes (l : list event) : list event := List.filter is_write l.
Definition prompts (l : list event) : list event := List.filter is_prompt l.
Definition dumps (l : list event) : list event := List.filter is_dump l.
Definition fetches (l : list event) : list event := List.filter is_fetch l.

(** ** The program *)

Section Program.

(** [Path.home()] *)
Variable home : string.

Definition tokenstore : string := home +:+ "/.garminconnect".

(** The [try] block of [login_garmin_with_mfa]: [Some g] is its
    [return g]. *)
Definition login_with_tokens : prog (option garmin) :=
  g ← perform (NewGarmin None None false);
  _ ← perform (GarminLogin g (Some tokenstore));
  _ ← print "Garmin login via tokens gelukt.";
  mret (Some g).

(** What follows the [try] statement: steps 2) and 3). *)
Definition login_with_password (email password : string) : prog garmin :=
  _ ← print "Geen geldige tokens. Nieuwe Garmin login (met MFA) ...";
  g ← perform (NewGarmin (Some email) (Some password) true);
  '(result1, result2) ← perform (GarminLogin g None);
  _ ← (if eq_str result1 "needs_mfa" then
         mfa_code ← perform (Input "Voer Garmin MFA code uit je mail in: ");
         perform (GarminResumeLogin g result2 mfa_code)
       else mret tt);
  _ ← perform (GarthDump g tokenstore);
  _ ← print "Nieuwe Garmin tokens opgeslagen.";
  mret g.

Definition login_garmin_with_mfa (email password : string) : prog garmin :=
  restored ← try_except login_with_tokens (mret None);
  match restored with
  | Some g => mret g
  | None => login_with_password email password
  end.

(** [range(n)] *)
Definition range (n : Z) : list Z := seqZ 0 n.

(** The fetch of one day, as a log entry. *)
Definition fetch_of (g : garmin) (d : Date.date) : event :=
  Called (GetDailySteps g (Date.isoformat d) (Date.isoformat d)).

(** The [for d in daterange] loop of [get_all_daily_steps]. *)
Fixpoint fetch_days (g : garmin) (daterange : list Date.date)
    (daily_steps : list DailyStepRecord) : prog (list DailyStepRecord) :=
  match daterange with
  | [] => mret daily_steps
  | d :: rest =>
      fetched ← perform (GetDailySteps g (Date.isoformat d) (Date.isoformat d));
      fetch_days g rest (daily_steps ++ fetched)
  end.

(** [[startdate + timedelta(days=x)
      for x in range((today - startdate).days)]] *)
Definition daterange (startdate today : Date.date) : list Date.date :=
  map (fun x => Date.add_days startdate x)
      (range (Date.days_between today startdate)).

(** The clock is read twice: for [startdate], and again for the end of
    the range. *)
Definition get_all_daily_steps (g : garmin) : prog (list DailyStepRecord) :=
  today ← perform DateToday;
  let startdate := Date.sub_days today 1 in
  today' ← perform DateToday;
  fetch_days g (daterange startdate today') [].

(** The filter of [daily_steps_exist]. *)
Definition walking_on_date (activity_date : string) : query_filter :=
  And [DateEquals "Date" activity_date;
       TitleEquals "Activity Type" "Walking"].

Definition daily_steps_exist (database_id activity_date : string)
    : prog (option page) :=
  results ← perform (DatabasesQuery database_id (walking_on_date activity_date));
  mret (head results).

(** [props[name]['number']] *)
Definition number_of (props : gmap string property) (name : string)
    : result value :=
  match props !! name with
  | None => Err (KeyError name)
  | Some (Number v) => Ok v
  | Some _ => Err (KeyError "number")
  end.

(** [total_distance = d.get('totalDistance')], replaced by the [int] 0
    when it is [None]; then [round(total_distance / 1000, 2)]. *)
Definition distance_km (field : option PyFloat.float) : PyFloat.float :=
  let total_distance :=
    match field with
    | None => PyFloat.of_Z 0
    | Some d => d
    end in
  PyFloat.round2 (PyFloat.div total_distance (PyFloat.of_Z 1000)).

Definition steps_need_update (existing_steps : page)
    (new_steps : DailyStepRecord) : result bool :=
  let existing_props := properties existing_steps in
  match number_of existing_props "Total Steps" with
  | Err e => Err e
  | Ok steps =>
      if py_ne steps (get_int (totalSteps new_steps)) then Ok true else
      match number_of existing_props "Step Goal" with
      | Err e => Err e
      | Ok goal =>
          if py_ne goal (get_int (stepGoal new_steps)) then Ok true else
          match number_of existing_props "Total Distance (km)" with
          | Err e => Err e
          | Ok km =>
              Ok (py_ne km (VFloat (distance_km (totalDistance new_steps))))
          end
      end
  end.

Definition update_properties (new_steps : DailyStepRecord)
    : gmap string property :=
  {[ "Activity Type" := Title "Walking";
     "Total Steps" := Number (get_int (totalSteps new_steps));
     "Step Goal" := Number (get_int (stepGoal new_steps));
     "Total Distance (km)" :=
       Number (VFloat (distance_km (totalDistance new_steps))) ]}.

Definition update_daily_steps (existing_steps : page)
    (new_steps : DailyStepRecord) : prog unit :=
  perform (PagesUpdate (page_id existing_steps) (update_properties new_steps)).

Definition create_properties (steps : DailyStepRecord)
    : gmap string property :=
  {[ "Activity Type" := Title "Walking";
     "Date" := Date (calendarDate steps);
     "Total Steps" := Number (get_int (totalSteps steps));
     "Step Goal" := Number (get_int (stepGoal steps));
     "Total Distance (km)" :=
       Number (VFloat (distance_km (totalDistance steps))) ]}.

Definition create_daily_steps (database_id : string)
    (steps : DailyStepRecord) : prog unit :=
  perform (PagesCreate database_id (create_properties steps)).

(** The body of the [for steps in daily_steps] loop of [main]. *)
Definition reconcile (database_id : string) (steps : DailyStepRecord)
    : prog unit :=
  let steps_date := calendarDate steps in
  existing ← daily_steps_exist database_id steps_date;
  match existing with
  | Some existing_steps =>
      stale ← lift (steps_need_update existing_steps steps);
      if stale : bool then update_daily_steps existing_steps steps
      else mret tt
  | None => create_daily_steps database_id steps
  end.

(** The query that a pass over [steps] makes. *)
Definition the_query (database_id : string) (steps : DailyStepRecord) : call :=
  DatabasesQuery database_id (walking_on_date (calendarDate steps)).

Fixpoint reconcile_all (database_id : string)
    (daily_steps : list DailyStepRecord) : prog unit :=
  match daily_steps with
  | [] => mret tt
  | steps :: rest =>
      _ ← reconcile database_id steps;
      reconcile_all database_id rest
  end.

(** [main], given the four environment settings it reads. *)
Definition main (garmin_email garmin_password notion_token database_id : string)
    : prog unit :=
  g ← login_garmin_with_mfa garmin_email garmin_password;
  daily_steps ← get_all_daily_steps g;
  reconcile_all database_id daily_steps.

(** The properties that an update names. *)
Definition tracked : gset string :=
  {[ "Activity Type"; "Total Steps"; "Step Goal"; "Total Distance (km)" ]}.

(** What a write of a pass over [steps] must look like as far as the
    date goes: an update names the tracked properties and no Date, a
    create sets Date to the record's. *)
Definition dated_as_designed (steps : DailyStepRecord) (e : event) : Prop :=
  match e with
  | Called (PagesUpdate _ props) =>
      dom props = tracked /\ props !! "Date" = None
  | Called (PagesCreate _ props) =>
      props !! "Date" = Some (Date (calendarDate steps))
  | _ => True
  end.

(** Two passes over the same record, the second on the state that
    the first one left. *)
Definition reconcile_twice {W : world} (database_id : string)
    (steps : DailyStepRecord) (s : state W) : outcome W unit :=
  run (reconcile database_id steps)
      (final (run (reconcile database_id steps) s)).

End Program.

(** ** A model of the Notion database

    The rows of the one database behind [database_id], in the order in
    which a query lists them.  A query returns the rows that satisfy
    every condition of its filter; a create appends a row under a new
    id; an update replaces, in the row of that id, the properties that
    it names and leaves the others as they are. *)
Module Notion.

Definition holds (c : condition) (props : gmap string property) : bool :=
  match c with
  | DateEquals prop d =>
      match props !! prop with
      | Some (Date start) => String.eqb start d
      | _ => false
      end
  | TitleEquals prop t =>
      match props !! prop with
      | Some (Title content) => String.eqb content t
      | _ => false
      end
  end.

Definition matches (f : query_filter) (row : page) : bool :=
  match f with
  | And conditions => forallb (fun c => holds c (properties row)) conditions
  end.

Definition has_id (i : string) (row : page) : bool := String.eqb (page_id row) i.

Definition patch (i : string) (props : gmap string property) (row : page) : page :=
  if has_id i row
  then {| page_id := page_id row; properties := props ∪ properties row |}
  else row.

Definition new_row (rows : list page) (props : gmap string property) : page :=
  {| page_id := fresh (map page_id rows); properties := props |}.

Definition serve (c : call) (rows : list page)
    : result (response c) * list page :=
  match c as c0 return result (response c0) * list page with
  | DatabasesQuery _ f => (Ok (List.filter (matches f) rows), rows)
  | PagesCreate _ props => (Ok tt, rows ++ [new_row rows props])
  | PagesUpdate i props =>
      if existsb (has_id i) rows
      then (Ok tt, map (patch i props) rows)
      else (Err (Error "APIResponseError"), rows)
  | _ => (Err (Error "NotImplementedError"), rows)
  end.

Definition db : world := {| state := list page; respond := serve |}.

(** The same database behind its JSON interface.  The body of a write
    travels as JSON, which has neither NaN nor an infinity: a write that
    carries such a number raises before anything is stored.  Every other
    call is served as above. *)
Definition is_json_number (x : PyFloat.float) : bool :=
  match x with
  | S754_nan | S754_infinity _ => false
  | _ => true
  end.

Definition is_json (p : property) : bool :=
  match p with
  | Number (VFloat x) => is_json_number x
  | _ => true
  end.

Definition encodable (props : gmap string property) : bool :=
  forallb (fun kv : string * property => is_json kv.2) (map_to_list props).

Definition json_serve (c : call) (rows : list page)
    : result (response c) * list page :=
  match c as c0 return result (response c0) * list page with
  | PagesCreate database_id props =>
      if encodable props then serve (PagesCreate database_id props) rows
      else (Err (Error "ValueError"), rows)
  | PagesUpdate i props =>
      if encodable props then serve (PagesUpdate i props) rows
      else (Err (Error "ValueError"), rows)
  | c0 => serve c0 rows
  end.

Definition json_db : world := {| state := list page; respond := json_serve |}.

(** The rows for a date: those that the reconciler's query selects. *)
Definition walking_on (d : string) (rows : list page) : list page :=
  List.filter (matches (walking_on_date d)) rows.

(** [new] is [old] but for the tracked properties. *)
Definition same_but_tracked (old new : page) : Prop :=
  page_id new = page_id old
  /\ forall k : string,
       k ∈ tracked \/ properties new !! k = properties old !! k.

(** No two rows share an id. *)
Definition distinct_ids (rows : list page) : Prop := NoDup (map page_id rows).

(** At most one row per (date, "Walking"). *)
Definition one_row_per_day (rows : list page) : Prop :=
  forall d : string, (length (walking_on d rows) <= 1)%nat.

End Notion.

(** ** A model of the Garmin side

    The credential store is a map from paths to token bundles; every
    [Garmin] object remembers how it was built and the tokens it holds.
    The remote service and the person at the terminal are oracles. *)
Module Garmin.

Inductive login_reply : Type :=
| Rejected
| NeedsMfa (client_state : nat)
| Granted (tokens : nat).

Record service : Type := {
  accepts : nat -> bool;
  answers : string -> string -> login_reply;
  redeems : nat -> string -> option nat;
  history : string -> list DailyStepRecord
}.

Record client : Type := {
  credentials : option (string * string);
  held : option nat
}.

Record desk : Type := {
  files : gmap string nat;
  clients : list client;
  keyboard : list string;
  clock : list Date.date
}.

Definition hold (g : garmin) (tokens : nat) (s : desk) : desk :=
  {| files := files s;
     clients := alter (fun c => {| credentials := credentials c;
                                   held := Some tokens |}) g (clients s);
     keyboard := keyboard s;
     clock := clock s |}.

Definition attend (svc : service) (c : call) (s : desk)
    : result (response c) * desk :=
  match c as c0 return result (response c0) * desk with
  | Input _ =>
      match keyboard s with
      | line :: rest =>
          (Ok line, {| files := files s; clients := clients s;
                       keyboard := rest; clock := clock s |})
      | [] => (Err (Error "EOFError"), s)
      end
  | DateToday =>
      match clock s with
      | d :: rest =>
          (Ok d, {| files := files s; clients := clients s;
                    keyboard := keyboard s; clock := rest |})
      | [] => (Err (Error "OSError"), s)
      end
  | NewGarmin email password _ =>
      let creds :=
        match email, password with
        | Some e, Some p => Some (e, p)
        | _, _ => None
        end in
      (Ok (length (clients s)),
       {| files := files s;
          clients := clients s ++ [{| credentials := creds; held := None |}];
          keyboard := keyboard s; clock := clock s |})
  | GarminLogin g (Some path) =>
      match files s !! path with
      | Some tokens =>
          if accepts svc tokens
          then (Ok (PyNone, PyNone), hold g tokens s)
          else (Err (Error "GarminConnectAuthenticationError"), s)
      | None => (Err (Error "FileNotFoundError"), s)
      end
  | GarminLogin g None =>
      match clients s !! g with
      | Some {| credentials := Some (e, p) |} =>
          match answers svc e p with
          | Rejected => (Err (Error "GarminConnectAuthenticationError"), s)
          | NeedsMfa st => (Ok (PyStr "needs_mfa", PyOpaque st), s)
          | Granted tokens => (Ok (PyOpaque tokens, PyOpaque tokens), hold g tokens s)
          end
      | _ => (Err (Error "GarminConnectAuthenticationError"), s)
      end
  | GarminResumeLogin g (PyOpaque st) code =>
      match redeems svc st code with
      | Some tokens => (Ok tt, hold g tokens s)
      | None => (Err (Error "GarminConnectAuthenticationError"), s)
      end
  | GarminResumeLogin _ _ _ => (Err (Error "TypeError"), s)
  | GarthDump g path =>
      match clients s !! g with
      | Some {| held := Some tokens |} =>
          (Ok tt, {| files := <[path := tokens]> (files s); clients := clients s;
                     keyboard := keyboard s; clock := clock s |})
      | _ => (Err (Error "AttributeError"), s)
      end
  | GetDailySteps g day _ =>
      match clients s !! g with
      | Some {| held := Some _ |} => (Ok (history svc day), s)
      | _ => (Err (Error "GarminConnectAuthenticationError"), s)
      end
  | _ => (Err (Error "NotImplementedError"), s)
  end.

Definition at_desk (svc : service) : world :=
  {| state := desk; respond := attend svc |}.

End Garmin.
(** ** Sample data *)
Module Examples.

(** 6.0 and 0.0 *)
Definition six : PyFloat.float := S754_finite false 6755399441055744 (-50).

Definition may_day : DailyStepRecord :=
  {| calendarDate := "2024-05-01"; totalSteps := Some 8000;
     stepGoal := Some 10000; totalDistance := Some (PyFloat.of_Z 6000) |}.

Definition no_distance : DailyStepRecord :=
  {| calendarDate := "2024-05-01"; totalSteps := Some 8000;
     stepGoal := None; totalDistance := None |}.

Definition nan_day : DailyStepRecord :=
  {| calendarDate := "2024-05-01"; totalSteps := Some 8000;
     stepGoal := Some 10000; totalDistance := Some PyFloat.nan |}.

(** A row for the first of May with 7000 steps. *)
Definition stale_row : page :=
  {| page_id := "row-1";
     properties :=
       {[ "Activity Type" := Title "Walking";
          "Date" := Date "2024-05-01";
          "Total Steps" := Number (VInt 7000);
          "Step Goal" := Number (VInt 10000);
          "Total Distance (km)" := Number (VFloat six) ]} |}.

(** The first and the second of May 2024, as ordinals. *)
Definition may_1st : Date.date := 739007.
Definition may_2nd : Date.date := 739008.

(** A service that accepts the token bundle 7, asks the one known
    user for a second factor and grants the bundle 8 for the code
    "123456". *)
Definition svc : Garmin.service :=
  {| Garmin.accepts := fun tokens => Nat.eqb tokens 7;
     Garmin.answers := fun email password =>
       if String.eqb password "secret" then Garmin.NeedsMfa 3
       else Garmin.Rejected;
     Garmin.redeems := fun st code =>
       if String.eqb code "123456" then Some 8%nat else None;
     Garmin.history := fun day => [] |}.

(** A desk with a valid bundle in the credential store, *)
Definition cached : Garmin.desk :=
  {| Garmin.files := {[ tokenstore "/home/u" := 7%nat ]};
     Garmin.clients := [];
     Garmin.keyboard := ["123456"];
     Garmin.clock := [may_2nd; may_2nd] |}.

(** one with a bundle that the service no longer accepts, *)
Definition expired : Garmin.desk :=
  {| Garmin.files := {[ tokenstore "/home/u" := 5%nat ]};
     Garmin.clients := [];
     Garmin.keyboard := ["123456"];
     Garmin.clock := [may_2nd; may_2nd] |}.

(** one that is logged in, *)
Definition logged_in : Garmin.desk :=
  {| Garmin.files := ∅;
     Garmin.clients := [{| Garmin.credentials := None; Garmin.held := Some 7%nat |}];
     Garmin.keyboard := [];
     Garmin.clock := [may_2nd; may_2nd] |}.

(** and one, logged in, where midnight passes between the two
    readings of the clock. *)
Definition at_midnight : Garmin.desk :=
  {| Garmin.files := ∅;
     Garmin.clients := [{| Garmin.credentials := None; Garmin.held := Some 7%nat |}];
     Garmin.keyboard := [];
     Garmin.clock := [may_1st; may_2nd] |}.

End Examples.


(** ** Further vocabulary for logs, batches and whole runs *)

(** The queries, the calls to Notion of any kind and the readings of
    the clock within a log. *)
Definition is_query (e : event) : bool :=
  match e with
  | Called (DatabasesQuery _ _) => true
  | _ => false
  end.

Definition is_notion_call (c : call) : bool :=
  match c with
  | DatabasesQuery _ _ | PagesCreate _ _ | PagesUpdate _ _ => true
  | _ => false
  end.

Definition is_notion (e : event) : bool :=
  match e with
  | Called c => is_notion_call c
  | _ => false
  end.

Definition is_clock (e : event) : bool :=
  match e with
  | Called DateToday => true
  | _ => false
  end.

Definition queries (l : list event) : list event := List.filter is_query l.

(** The query of each record of a batch, in order. *)
Definition queries_for (database_id : string)
    (daily_steps : list DailyStepRecord) : list event :=
  map (fun steps => Called (the_query database_id steps)) daily_steps.

(** The dates of a batch, and a batch without NaN distances. *)
Definition dates (daily_steps : list DailyStepRecord) : list string :=
  map calendarDate daily_steps.

Definition no_nan (daily_steps : list DailyStepRecord) : Prop :=
  Forall (fun steps => totalDistance steps <> Some PyFloat.nan) daily_steps.

(** The sign bit of a float ([math.copysign(1, x) < 0]; NaN counts as
    unsigned here). *)
Definition signbit (x : PyFloat.float) : bool :=
  match x with
  | S754_zero s | S754_infinity s | S754_finite s _ _ => s
  | S754_nan => false
  end.

(** A record is settled when the query for its date finds, first, a row
    that the comparison does not find stale. *)
Definition settled (steps : DailyStepRecord) (rows : list page) : Prop :=
  exists (row : page) (others : list page),
    Notion.walking_on (calendarDate steps) rows = row :: others
    /\ steps_need_update row steps = Ok false.

(** A program all of whose calls satisfy [P]. *)
Fixpoint calls_only (P : call -> bool) {A : Type} (p : prog A) : Prop :=
  match p with
  | Ret _ | Raise _ => True
  | Say _ next => calls_only P next
  | Do c k => P c = true /\ forall r, calls_only P (k r)
  end.

(** ** The two models side by side

    The world of a whole run: the Garmin side and the database, each
    answering its own calls and leaving the other alone. *)
Module Both.

Definition both : Type := Garmin.desk * list page.

Definition attend (svc : Garmin.service) (c : call) (s : both)
    : result (response c) * both :=
  if is_notion_call c
  then let '(r, rows) := Notion.serve c (snd s) in (r, (fst s, rows))
  else let '(r, d) := Garmin.attend svc c (fst s) in (r, (d, snd s)).

Definition at_home (svc : Garmin.service) : world :=
  {| state := both; respond := attend svc |}.

End Both.

(** ** More sample data *)
Module Samples.

(** A row for the first of May that lacks the three numbers. *)
Definition bare_row : page :=
  {| page_id := "row-2";
     properties :=
       {[ "Activity Type" := Title "Walking";
          "Date" := Date "2024-05-01" ]} |}.

(** A row for the first of May with 7000 steps and nothing else. *)
Definition steps_only_row : page :=
  {| page_id := "row-4";
     properties :=
       {[ "Activity Type" := Title "Walking";
          "Date" := Date "2024-05-01";
          "Total Steps" := Number (VInt 7000) ]} |}.

(** A row for the first of May whose distance is empty. *)
Definition row_without_distance : page :=
  {| page_id := "row-3";
     properties :=
       {[ "Activity Type" := Title "Walking";
          "Date" := Date "2024-05-01";
          "Total Steps" := Number (VInt 8000);
          "Step Goal" := Number VNone;
          "Total Distance (km)" := Number VNone ]} |}.

(** A world in which every call is interrupted. *)
Definition interrupted : world :=
  {| state := unit;
     respond := fun c s => (Err KeyboardInterrupt, s) |}.

(** A service that knows the steps of the first of May. *)
Definition diary : Garmin.service :=
  {| Garmin.accepts := fun tokens => Nat.eqb tokens 7;
     Garmin.answers := fun email password => Garmin.Rejected;
     Garmin.redeems := fun st code => None;
     Garmin.history := fun day =>
       if String.eqb day "2024-05-01" then [Examples.may_day] else [] |}.

(** A desk with a valid token bundle and a clock that stays on the
    second of May for four readings. *)
Definition morning : Garmin.desk :=
  {| Garmin.files := {[ tokenstore "/home/u" := 7%nat ]};
     Garmin.clients := [];
     Garmin.keyboard := [];
     Garmin.clock := [Examples.may_2nd; Examples.may_2nd;
                      Examples.may_2nd; Examples.may_2nd] |}.

(** A logged-in desk whose clock steps back between the readings. *)
Definition clock_set_back : Garmin.desk :=
  {| Garmin.files := ∅;
     Garmin.clients := [{| Garmin.credentials := None; Garmin.held := Some 7%nat |}];
     Garmin.keyboard := [];
     Garmin.clock := [Examples.may_2nd; Examples.may_1st] |}.

(** A desk with an expired token bundle where the code typed at the
    prompt is not the one that the service expects. *)
Definition wrong_code : Garmin.desk :=
  {| Garmin.files := {[ tokenstore "/home/u" := 5%nat ]};
     Garmin.clients := [];
     Garmin.keyboard := ["000000"];
     Garmin.clock := [] |}.

(** The Garmin side with a credential store that cannot be written. *)
Definition read_only (svc : Garmin.service) : world :=
  {| state := Garmin.desk;
     respond := fun c =>
       match c as c0 return Garmin.desk -> result (response c0) * Garmin.desk with
       | GarthDump _ _ => fun d => (Err (Error "PermissionError"), d)
       | c0 => Garmin.attend svc c0
       end |}.

End Samples.


(** * Properties *)

(** ** Floats: where NaN can and cannot come from *)
Section FloatFacts.

Import PyFloat.

Lemma shr_1_nonneg (mrs : shr_record) :
  0 <= shr_m mrs -> 0 <= shr_m (shr_1 mrs).
Proof.
  destruct mrs as [m r s]; simpl.
  destruct m as [|p|p]; [| destruct p | destruct p]; simpl; lia.
Qed.

Lemma iter_shr_1_nonneg (p : positive) :
  forall mrs, 0 <= shr_m mrs -> 0 <= shr_m (SpecFloat.iter_pos shr_1 p mrs).
Proof.
  induction p as [p IH | p IH |]; intros mrs Hm; simpl.
  - apply IH, IH, shr_1_nonneg, Hm.
  - apply IH, IH, Hm.
  - apply shr_1_nonneg, Hm.
Qed.

Lemma shr_fexp_nonneg (m e : Z) (l : location) :
  0 <= m -> 0 <= shr_m (fst (shr_fexp prec emax m e l)).
Proof.
  intros Hm. unfold shr_fexp, shr.
  assert (H0 : 0 <= shr_m (shr_record_of_loc m l))
    by (destruct l as [|[]]; exact Hm).
  destruct (fexp prec emax (Zdigits2 m + e) - e) as [|p|p]; simpl; trivial.
  apply iter_shr_1_nonneg, H0.
Qed.

Lemma round_nearest_even_nonneg (m : Z) (l : location) :
  0 <= m -> 0 <= round_nearest_even m l.
Proof.
  intros Hm. destruct l as [|[]]; simpl; try lia.
  destruct (Z.even m); lia.
Qed.

Lemma binary_round_aux_not_nan (s : bool) (m e : Z) (l : location) :
  0 <= m -> is_nan (binary_round_aux prec emax s m e l) = false.
Proof.
  intros Hm. unfold binary_round_aux.
  pose proof (shr_fexp_nonneg m e l Hm) as H1.
  destruct (shr_fexp prec emax m e l) as [mrs' e'] eqn:E1; simpl in H1.
  pose proof (shr_fexp_nonneg _ e' loc_Exact
                (round_nearest_even_nonneg _ (loc_of_shr_record mrs') H1)) as H2.
  destruct (shr_fexp prec emax (round_nearest_even _ _) e' loc_Exact)
    as [mrs'' e''] eqn:E2; simpl in H2.
  destruct (shr_m mrs'') as [|p|p]; [reflexivity | | lia].
  destruct (e'' <=? emax - prec); reflexivity.
Qed.

(** A quotient of two finite non-zero floats is never NaN. *)
Lemma div_finite_not_nan (sx sy : bool) (mx my : positive) (ex ey : Z) :
  is_nan (div (S754_finite sx mx ex) (S754_finite sy my ey)) = false.
Proof.
  unfold div, SFdiv, SFdiv_core_binary.
  set (m' := match _ - _ - _ with Z.pos _ => _ | Z0 => _ | Z.neg _ => _ end).
  assert (Hm' : 0 <= m').
  { subst m'. destruct (_ - _ - _); try lia. apply Z.shiftl_nonneg. lia. }
  pose proof (Z.div_pos m' (Z.pos my) Hm' ltac:(lia)) as Hq.
  unfold Z.div in Hq.
  destruct (Z.div_eucl m' (Z.pos my)) as [q r]; simpl in Hq.
  apply binary_round_aux_not_nan, Hq.
Qed.

(** [x / 1000] is NaN only when [x] is. *)
Lemma div_1000_not_nan (x : float) :
  is_nan x = false -> is_nan (div x (of_Z 1000)) = false.
Proof.
  intros Hx.
  change (of_Z 1000) with (S754_finite false 8796093022208000 (-43)).
  destruct x as [s | s | | s m e]; try discriminate; try reflexivity.
  apply div_finite_not_nan.
Qed.

(** [round(x, 2)] is NaN only when [x] is. *)
Lemma round2_not_nan (x : float) :
  is_nan x = false -> is_nan (round2 x) = false.
Proof.
  intros Hx. destruct x as [s | s | | s m e]; try discriminate; try reflexivity.
  unfold round2.
  change (of_Z 100) with (S754_finite false 7036874417766400 (-46)).
  destruct (match e with Z.neg p => _ | _ => _ end);
    [reflexivity | apply div_finite_not_nan | reflexivity].
Qed.

(** A float that is not NaN equals itself. *)
Lemma eqb_refl (x : float) : is_nan x = false -> eqb x x = true.
Proof.
  intros Hx. unfold eqb, SFeqb.
  destruct x as [s | s | | s m e]; try discriminate; simpl.
  - reflexivity.
  - destruct s; reflexivity.
  - rewrite Z.compare_refl.
    assert (Hc : Pos.compare_cont Eq m m = Eq) by apply Pos.compare_refl.
    rewrite Hc. destruct s; reflexivity.
Qed.

Lemma eqb_nan (x : float) : eqb nan x = false.
Proof. reflexivity. Qed.

End FloatFacts.

(** ** Running programs *)
Section RunFacts.

Context {W : world}.

(** The events already seen are only carried along. *)
Lemma run_from_seen {A : Type} (p : prog A) :
  forall (s : state W) (seen : list event),
    run_from p s seen =
    {| returned := returned (run p s);
       final := final (run p s);
       log := seen ++ log (run p s) |}.
Proof.
  unfold run. induction p as [a | e | msg next IH | c k IH]; intros s seen; simpl.
  - by rewrite app_nil_r.
  - by rewrite app_nil_r.
  - rewrite (IH s (seen ++ [Printed msg])), (IH s [Printed msg]); simpl.
    by rewrite <- app_assoc.
  - destruct (respond W c s) as [r s'].
    rewrite (IH r s' (seen ++ Called c :: reported r)),
            (IH r s' (Called c :: reported r)); simpl.
    by rewrite <- app_assoc.
Qed.

(** Sequencing: the second program starts where the first one ended,
    unless the first one raised. *)
Lemma run_from_bind {A B : Type} (p : prog A) (f : A -> prog B) :
  forall (s : state W) (seen : list event),
    run_from (bind p f) s seen =
    match returned (run_from p s seen) with
    | Ok a => run_from (f a) (final (run_from p s seen)) (log (run_from p s seen))
    | Err e => {| returned := Err e;
                  final := final (run_from p s seen);
                  log := log (run_from p s seen) |}
    end.
Proof.
  induction p as [a | e | msg next IH | c k IH]; intros s seen; simpl; trivial.
  destruct (respond W c s) as [r s']. apply IH.
Qed.

(** [try ... except Exception]: the handler starts where the body
    stopped, and only for an exception that derives from [Exception]. *)
Lemma run_from_try_except {A : Type} (p h : prog A) :
  forall (s : state W) (seen : list event),
    run_from (try_except p h) s seen =
    match returned (run_from p s seen) with
    | Ok a => run_from p s seen
    | Err e =>
        if is_Exception e
        then run_from h (final (run_from p s seen)) (log (run_from p s seen))
        else run_from p s seen
    end.
Proof.
  induction p as [a | e | msg next IH | c k IH]; intros s seen; simpl; trivial.
  - by destruct (is_Exception e).
  - destruct (respond W c s) as [r s']. apply IH.
Qed.

End RunFacts.

(** ** Reconciliation *)
Section Reconciler.

Context {W : world}.
Implicit Types (s : state W) (steps : DailyStepRecord) (row : page).

(** A pass starts with its query, whatever comes back. *)
Lemma reconcile_unfold (database_id : string) steps s :
  run (reconcile database_id steps) s =
  let '(r, s1) := respond W (the_query database_id steps) s in
  match r with
  | Err e => {| returned := Err e; final := s1;
                log := [Called (the_query database_id steps); Failed e] |}
  | Ok [] =>
      run_from (create_daily_steps database_id steps) s1
               [Called (the_query database_id steps)]
  | Ok (row :: _) =>
      match steps_need_update row steps with
      | Ok true =>
          run_from (update_daily_steps row steps) s1
                   [Called (the_query database_id steps)]
      | Ok false => {| returned := Ok tt; final := s1;
                       log := [Called (the_query database_id steps)] |}
      | Err e => {| returned := Err e; final := s1;
                    log := [Called (the_query database_id steps)] |}
      end
  end.
Proof.
  unfold run, reconcile, daily_steps_exist, the_query; simpl.
  destruct (respond W _ s) as [[results | e] s1]; simpl; trivial.
  destruct results as [| row others]; simpl; trivial.
  destruct (steps_need_update row steps) as [[|] | e]; reflexivity.
Qed.

(** C1.  When the query of a pass finds no row for the record, the pass
    writes exactly once, a create, with Activity Type "Walking", Date
    the record's calendarDate, Total Steps and Step Goal the record's
    raw values, and Total Distance (km) the value
    round((totalDistance, or 0 when absent) / 1000, 2); these five are
    all of its properties. *)
Theorem absent_row_is_created (database_id : string) steps s s1 :
  respond W (the_query database_id steps) s = (Ok [], s1) ->
  exists props : gmap string property,
    writes (log (run (reconcile database_id steps) s)) =
      [Called (PagesCreate database_id props)]
    /\ props !! "Activity Type" = Some (Title "Walking")
    /\ props !! "Date" = Some (Date (calendarDate steps))
    /\ props !! "Total Steps" =
         Some (Number (match totalSteps steps with
                       | Some n => VInt n
                       | None => VNone
                       end))
    /\ props !! "Step Goal" =
         Some (Number (match stepGoal steps with
                       | Some n => VInt n
                       | None => VNone
                       end))
    /\ props !! "Total Distance (km)" =
         Some (Number (VFloat (PyFloat.round2
           (PyFloat.div (default (PyFloat.of_Z 0) (totalDistance steps))
                        (PyFloat.of_Z 1000)))))
    /\ dom props = {[ "Activity Type"; "Date"; "Total Steps"; "Step Goal";
                      "Total Distance (km)" ]}.
Proof.
  intros Hquery. rewrite reconcile_unfold, Hquery.
  exists (create_properties steps).
  split; [| by destruct steps as [d [n|] [m|] [x|]]].
  unfold create_daily_steps, perform; simpl.
  by destruct (respond W _ s1) as [[[] | e] s2].
Qed.

(** What [steps_need_update] computes on a row that carries the three
    numbers. *)
Lemma steps_need_update_numbers row steps (a b c : value) :
  properties row !! "Total Steps" = Some (Number a) ->
  properties row !! "Step Goal" = Some (Number b) ->
  properties row !! "Total Distance (km)" = Some (Number c) ->
  steps_need_update row steps =
    Ok (py_ne a (get_int (totalSteps steps))
        || py_ne b (get_int (stepGoal steps))
        || py_ne c (VFloat (distance_km (totalDistance steps)))).
Proof.
  intros Ha Hb Hc. unfold steps_need_update, number_of.
  rewrite Ha, Hb, Hc.
  destruct (py_ne a _); [reflexivity |].
  destruct (py_ne b _); reflexivity.
Qed.

(** C2.  When the query finds a row, with numbers [a], [b] and [c] for
    Total Steps, Step Goal and Total Distance (km), the pass writes
    exactly once, an update of that row with the four properties
    Activity Type, Total Steps, Step Goal and Total Distance (km), if
    one of the three numbers differs from the record's, and does not
    write at all if none does. *)
Theorem present_row_is_updated_iff_stale (database_id : string) steps s s1
    row (others : list page) (a b c : value) :
  respond W (the_query database_id steps) s = (Ok (row :: others), s1) ->
  properties row !! "Total Steps" = Some (Number a) ->
  properties row !! "Step Goal" = Some (Number b) ->
  properties row !! "Total Distance (km)" = Some (Number c) ->
  let km := PyFloat.round2
              (PyFloat.div (default (PyFloat.of_Z 0) (totalDistance steps))
                           (PyFloat.of_Z 1000)) in
  let differs := py_ne a (get_int (totalSteps steps))
                 || py_ne b (get_int (stepGoal steps))
                 || py_ne c (VFloat km) in
  exists props : gmap string property,
    writes (log (run (reconcile database_id steps) s)) =
      (if differs then [Called (PagesUpdate (page_id row) props)] else [])
    /\ props !! "Activity Type" = Some (Title "Walking")
    /\ props !! "Total Steps" = Some (Number (get_int (totalSteps steps)))
    /\ props !! "Step Goal" = Some (Number (get_int (stepGoal steps)))
    /\ props !! "Total Distance (km)" = Some (Number (VFloat km))
    /\ dom props = {[ "Activity Type"; "Total Steps"; "Step Goal";
                      "Total Distance (km)" ]}.
Proof.
  intros Hquery Ha Hb Hc km differs.
  rewrite reconcile_unfold, Hquery.
  rewrite (steps_need_update_numbers row steps a b c Ha Hb Hc).
  exists (update_properties steps).
  split; [| by destruct steps as [d n m [x|]]].
  change (VFloat (distance_km (totalDistance steps))) with (VFloat km).
  fold differs. destruct differs; [| reflexivity].
  unfold update_daily_steps, perform; simpl.
  by destruct (respond W _ s1) as [[[] | e] s2].
Qed.

End Reconciler.

(** ** Reconciliation against the model of the database *)
Section NotionFacts.

Import Notion.
Implicit Types (rows : list page) (row : page) (steps : DailyStepRecord).

Lemma patch_id (i : string) (props : gmap string property) row :
  page_id (patch i props row) = page_id row.
Proof. unfold patch. by destruct (has_id i row). Qed.

(** An update keeps the date of a row and makes it a "Walking" row. *)
Lemma matches_updated (d : string) steps (old : gmap string property) (i : string) :
  matches (walking_on_date d)
    {| page_id := i; properties := update_properties steps ∪ old |} =
  holds (DateEquals "Date" d) old.
Proof.
  unfold matches, walking_on_date; simpl. unfold holds.
  rewrite (lookup_union_r (update_properties steps) old "Date") by reflexivity.
  rewrite (lookup_union_Some_l (update_properties steps) old
             "Activity Type" (Title "Walking")) by reflexivity.
  simpl. by rewrite !andb_true_r.
Qed.

Lemma matches_date (d : string) row :
  matches (walking_on_date d) row = true ->
  forall d' : string,
    matches (walking_on_date d') row = holds (DateEquals "Date" d') (properties row).
Proof.
  unfold matches, walking_on_date; simpl. intros H d'.
  apply andb_true_iff in H as [_ H]. rewrite H. by rewrite andb_true_r.
Qed.

Lemma matches_patch_own (d : string) steps row :
  matches (walking_on_date d) row = true ->
  forall d' : string,
    matches (walking_on_date d')
      (patch (page_id row) (update_properties steps) row) =
    matches (walking_on_date d') row.
Proof.
  intros H d'. unfold patch, has_id. rewrite String.eqb_refl.
  by rewrite matches_updated, (matches_date d row H d').
Qed.

Lemma matches_created (d : string) steps (i : string) :
  matches (walking_on_date d)
    {| page_id := i; properties := create_properties steps |} =
  String.eqb (calendarDate steps) d.
Proof.
  unfold matches, walking_on_date; simpl. by rewrite !andb_true_r.
Qed.

Lemma walking_on_head_in (d : string) rows row (others : list page) :
  walking_on d rows = row :: others ->
  In row rows /\ matches (walking_on_date d) row = true.
Proof.
  intros H. apply (filter_In (matches (walking_on_date d)) row rows).
  unfold walking_on in H. rewrite H. by left.
Qed.

Lemma existsb_has_id rows row :
  In row rows -> existsb (has_id (page_id row)) rows = true.
Proof.
  intros H. apply existsb_exists. exists row. split; [done |].
  unfold has_id. apply String.eqb_refl.
Qed.

(** One pass over the model, by what the query finds. *)
Lemma pass_on_db (database_id : string) steps rows :
  run (W := db) (reconcile database_id steps) rows =
  match walking_on (calendarDate steps) rows with
  | [] =>
      Build_outcome db unit (Ok tt)
        (rows ++ [new_row rows (create_properties steps)])
        [Called (the_query database_id steps);
         Called (PagesCreate database_id (create_properties steps))]
  | row :: _ =>
      match steps_need_update row steps with
      | Ok true =>
          Build_outcome db unit (Ok tt)
            (map (patch (page_id row) (update_properties steps)) rows)
            [Called (the_query database_id steps);
             Called (PagesUpdate (page_id row) (update_properties steps))]
      | Ok false =>
          Build_outcome db unit (Ok tt) rows
            [Called (the_query database_id steps)]
      | Err e =>
          Build_outcome db unit (Err e) rows
            [Called (the_query database_id steps)]
      end
  end.
Proof.
  rewrite reconcile_unfold. unfold the_query at 1; simpl.
  fold (walking_on (calendarDate steps) rows).
  destruct (walking_on (calendarDate steps) rows) as [| row others] eqn:Hq;
    [reflexivity |].
  destruct (steps_need_update row steps) as [[|] | e]; try reflexivity.
  unfold update_daily_steps, perform; simpl.
  apply walking_on_head_in in Hq as [Hin _].
  by rewrite (existsb_has_id rows row Hin).
Qed.

Lemma filter_map_length {A : Type} (P : A -> bool) (f : A -> A) (l : list A) :
  (forall x, In x l -> P (f x) = P x) ->
  length (List.filter P (map f l)) = length (List.filter P l).
Proof.
  induction l as [| x l IH]; intros Hsame; [reflexivity |]; simpl.
  rewrite (Hsame x) by (by left).
  destruct (P x); simpl; rewrite IH; trivial; intros y Hy; apply Hsame; by right.
Qed.

Lemma distinct_ids_same rows row r :
  distinct_ids rows -> In row rows -> In r rows ->
  has_id (page_id row) r = true -> r = row.
Proof.
  unfold distinct_ids, has_id. intros Hnd Hrow Hr Hid.
  apply String.eqb_eq in Hid.
  induction rows as [| r0 rest IH]; [done |].
  simpl in Hnd. apply NoDup_cons in Hnd as [Hnotin Hnd].
  destruct Hrow as [-> | Hrow], Hr as [-> | Hr]; trivial.
  - exfalso. apply Hnotin. rewrite <- Hid.
    apply list_elem_of_In, in_map, Hr.
  - exfalso. apply Hnotin. rewrite Hid.
    apply list_elem_of_In, in_map, Hrow.
  - by apply IH.
Qed.

Lemma ids_after_update (i : string) (props : gmap string property) rows :
  map page_id (map (patch i props) rows) = map page_id rows.
Proof.
  rewrite map_map. apply map_ext. intros row. apply patch_id.
Qed.

(** With distinct ids, an update of the row that the query found
    changes, for every date, neither which rows are selected nor how
    many. *)
Lemma walking_on_after_update (d d' : string) steps rows row (others : list page) :
  distinct_ids rows ->
  walking_on d rows = row :: others ->
  length (walking_on d' (map (patch (page_id row) (update_properties steps)) rows)) =
  length (walking_on d' rows).
Proof.
  intros Hnd Hq. apply walking_on_head_in in Hq as [Hin Hm].
  unfold walking_on.
  assert (Hsame : forall r, In r rows ->
            matches (walking_on_date d')
              (patch (page_id row) (update_properties steps) r) =
            matches (walking_on_date d') r).
  { intros r Hr.
    destruct (has_id (page_id row) r) eqn:Hid.
    - rewrite (distinct_ids_same rows row r Hnd Hin Hr Hid).
      apply (matches_patch_own d), Hm.
    - unfold patch. by rewrite Hid. }
  apply filter_map_length, Hsame.
Qed.

Lemma walking_on_after_create (d' : string) steps rows :
  walking_on d' (rows ++ [new_row rows (create_properties steps)]) =
  walking_on d' rows ++
    (if String.eqb (calendarDate steps) d'
     then [new_row rows (create_properties steps)] else []).
Proof.
  unfold walking_on. rewrite List.filter_app. f_equal.
  cbn [List.filter]. unfold new_row. rewrite matches_created.
  by destruct (String.eqb (calendarDate steps) d').
Qed.

(** The model keeps ids distinct and at most one row per day. *)
Lemma pass_keeps_invariant (database_id : string) steps rows :
  distinct_ids rows -> one_row_per_day rows ->
  distinct_ids (final (run (W := db) (reconcile database_id steps) rows))
  /\ one_row_per_day (final (run (W := db) (reconcile database_id steps) rows)).
Proof.
  intros Hnd Hone. rewrite pass_on_db.
  destruct (walking_on (calendarDate steps) rows) as [| row others] eqn:Hq.
  - simpl. split.
    + unfold distinct_ids. rewrite map_app; simpl.
      apply NoDup_app. split; [exact Hnd |]. split; [| apply NoDup_singleton].
      intros i Hi Hfresh. apply list_elem_of_singleton in Hfresh. subst i.
      exact (infinite_is_fresh _ Hi).
    + intros d'. rewrite walking_on_after_create, length_app.
      destruct (String.eqb (calendarDate steps) d') eqn:Hd; simpl.
      * apply String.eqb_eq in Hd. subst d'. rewrite Hq. simpl. lia.
      * specialize (Hone d'). lia.
  - destruct (steps_need_update row steps) as [[|] | e]; simpl; try done.
    split.
    + unfold distinct_ids. by rewrite ids_after_update.
    + intros d'.
      rewrite (walking_on_after_update _ d' steps rows row others Hnd Hq).
      apply Hone.
Qed.

Lemma py_ne_int (field : option Z) : py_ne (get_int field) (get_int field) = false.
Proof. destruct field as [n |]; [| reflexivity]. unfold py_ne; simpl. by rewrite Z.eqb_refl. Qed.

Lemma distance_km_not_nan (field : option PyFloat.float) :
  field <> Some PyFloat.nan -> PyFloat.is_nan (distance_km field) = false.
Proof.
  intros Hfield. unfold distance_km.
  apply round2_not_nan, div_1000_not_nan.
  destruct field as [[] |]; try reflexivity. by destruct Hfield.
Qed.

(** A row that holds what a write for [steps] stores is not stale. *)
Lemma written_row_is_fresh steps row :
  totalDistance steps <> Some PyFloat.nan ->
  properties row !! "Total Steps" = Some (Number (get_int (totalSteps steps))) ->
  properties row !! "Step Goal" = Some (Number (get_int (stepGoal steps))) ->
  properties row !! "Total Distance (km)" =
    Some (Number (VFloat (distance_km (totalDistance steps)))) ->
  steps_need_update row steps = Ok false.
Proof.
  intros Hnan Ha Hb Hc.
  rewrite (steps_need_update_numbers row steps _ _ _ Ha Hb Hc).
  rewrite !py_ne_int. unfold py_ne; simpl.
  by rewrite (eqb_refl _ (distance_km_not_nan _ Hnan)).
Qed.

Lemma updated_row_is_fresh steps (i : string) (old : gmap string property) :
  totalDistance steps <> Some PyFloat.nan ->
  steps_need_update
    {| page_id := i; properties := update_properties steps ∪ old |} steps = Ok false.
Proof.
  intros Hnan.
  apply written_row_is_fresh; trivial; simpl;
    by apply lookup_union_Some_l.
Qed.

(** After an update of the row that the query found, the query finds
    an updated row first. *)
Lemma head_after_update (d : string) steps (i : string) rows :
  forall row (others : list page),
    walking_on d rows = row :: others ->
    has_id i row = true ->
    exists (r : page) (others' : list page),
      walking_on d (map (patch i (update_properties steps)) rows) =
        {| page_id := page_id r;
           properties := update_properties steps ∪ properties r |} :: others'.
Proof.
  unfold walking_on.
  induction rows as [| r0 rest IH]; intros row others Hq Hid; [done |].
  cbn [map List.filter] in *.
  destruct (matches (walking_on_date d) r0) eqn:Hm0.
  - injection Hq as -> _.
    assert (Hp : patch i (update_properties steps) row =
                 {| page_id := page_id row;
                    properties := update_properties steps ∪ properties row |})
      by (unfold patch; by rewrite Hid).
    rewrite Hp, matches_updated, <- (matches_date d row Hm0 d), Hm0.
    by eexists _, _.
  - destruct (matches (walking_on_date d) (patch i (update_properties steps) r0))
      eqn:Hm1; [| by apply (IH row others)].
    unfold patch in *. destruct (has_id i r0); [by eexists _, _ | congruence].
Qed.

(** What a body that can be written as JSON says about the record. *)
Lemma encodable_lookup (props : gmap string property) (k : string)
    (x : PyFloat.float) :
  encodable props = true ->
  props !! k = Some (Number (VFloat x)) ->
  is_json_number x = true.
Proof.
  unfold encodable. intros Hall Hk.
  rewrite forallb_forall in Hall.
  apply (Hall (k, Number (VFloat x))).
  by apply list_elem_of_In, elem_of_map_to_list.
Qed.

Lemma distance_km_nan : distance_km (Some PyFloat.nan) = PyFloat.nan.
Proof. reflexivity. Qed.

Lemma encodable_not_nan steps :
  encodable (create_properties steps) = true
  \/ encodable (update_properties steps) = true ->
  totalDistance steps <> Some PyFloat.nan.
Proof.
  intros Henc Hnan.
  assert (H : is_json_number (distance_km (totalDistance steps)) = true).
  { destruct Henc as [Henc | Henc];
      by apply (encodable_lookup _ "Total Distance (km)" _ Henc). }
  by rewrite Hnan in H.
Qed.

(** Nothing equals NaN: a record with a NaN distance is never found
    up to date. *)
Lemma py_ne_nan (v : value) : py_ne v (VFloat PyFloat.nan) = true.
Proof. by destruct v as [| n | [[] | [] | | [] m e]]. Qed.

Lemma nan_is_stale row steps :
  totalDistance steps = Some PyFloat.nan ->
  steps_need_update row steps <> Ok false.
Proof.
  intros Hnan. unfold steps_need_update.
  destruct (number_of _ "Total Steps") as [a | e]; [| done].
  destruct (py_ne a _); [done |].
  destruct (number_of _ "Step Goal") as [b | e]; [| done].
  destruct (py_ne b _); [done |].
  destruct (number_of _ "Total Distance (km)") as [c | e]; [| done].
  by rewrite Hnan, distance_km_nan, py_ne_nan.
Qed.

(** One pass over the database behind JSON, by what the query finds. *)
Lemma pass_on_json_db (database_id : string) steps rows :
  run (W := json_db) (reconcile database_id steps) rows =
  match walking_on (calendarDate steps) rows with
  | [] =>
      if encodable (create_properties steps)
      then Build_outcome json_db unit (Ok tt)
             (rows ++ [new_row rows (create_properties steps)])
             [Called (the_query database_id steps);
              Called (PagesCreate database_id (create_properties steps))]
      else Build_outcome json_db unit (Err (Error "ValueError")) rows
             [Called (the_query database_id steps);
              Called (PagesCreate database_id (create_properties steps));
              Failed (Error "ValueError")]
  | row :: _ =>
      match steps_need_update row steps with
      | Ok true =>
          if encodable (update_properties steps)
          then Build_outcome json_db unit (Ok tt)
                 (map (patch (page_id row) (update_properties steps)) rows)
                 [Called (the_query database_id steps);
                  Called (PagesUpdate (page_id row) (update_properties steps))]
          else Build_outcome json_db unit (Err (Error "ValueError")) rows
                 [Called (the_query database_id steps);
                  Called (PagesUpdate (page_id row) (update_properties steps));
                  Failed (Error "ValueError")]
      | Ok false =>
          Build_outcome json_db unit (Ok tt) rows
            [Called (the_query database_id steps)]
      | Err e =>
          Build_outcome json_db unit (Err e) rows
            [Called (the_query database_id steps)]
      end
  end.
Proof.
  rewrite reconcile_unfold. unfold the_query at 1; simpl.
  fold (walking_on (calendarDate steps) rows).
  destruct (walking_on (calendarDate steps) rows) as [| row others] eqn:Hq.
  - unfold create_daily_steps, perform; simpl.
    by destruct (encodable (create_properties steps)).
  - destruct (steps_need_update row steps) as [[|] | e]; try reflexivity.
    unfold update_daily_steps, perform; simpl.
    destruct (encodable (update_properties steps)); [| reflexivity].
    apply walking_on_head_in in Hq as [Hin _].
    by rewrite (existsb_has_id rows row Hin).
Qed.

(** C3.  A second pass over the same record, on the state that the
    first pass left, writes nothing.  On [db], which stores whatever a
    write carries, this holds for every record whose totalDistance is
    not NaN, whatever rows there were before.  On [json_db], which
    stores a write as it is made unless its body cannot be written as
    JSON, it holds for every record whose first pass returned: the
    second pass then returns too, makes its query and nothing else, and
    leaves the rows as the first pass left them.  A record whose
    totalDistance is NaN does not get that far: its first pass on
    [json_db] ends with an exception and stores nothing. *)
Theorem second_pass_writes_nothing (database_id : string) steps rows :
  (totalDistance steps <> Some PyFloat.nan ->
   writes (log (reconcile_twice (W := db) database_id steps rows)) = [])
  /\ (returned (run (W := json_db) (reconcile database_id steps) rows) = Ok tt ->
      returned (reconcile_twice (W := json_db) database_id steps rows) = Ok tt
      /\ final (reconcile_twice (W := json_db) database_id steps rows) =
           final (run (W := json_db) (reconcile database_id steps) rows)
      /\ log (reconcile_twice (W := json_db) database_id steps rows) =
           [Called (the_query database_id steps)])
  /\ (totalDistance steps = Some PyFloat.nan ->
      final (run (W := json_db) (reconcile database_id steps) rows) = rows
      /\ exists e : exn,
           returned (run (W := json_db) (reconcile database_id steps) rows) =
             Err e).
Proof.
  split; [| split].
  - intros Hnan. unfold reconcile_twice.
    rewrite (pass_on_db database_id steps rows).
    destruct (walking_on (calendarDate steps) rows) as [| row others] eqn:Hq.
    + cbn [final]. rewrite pass_on_db, walking_on_after_create, Hq.
      rewrite String.eqb_refl. cbn [app].
      rewrite written_row_is_fresh; done.
    + destruct (steps_need_update row steps) as [[|] | e] eqn:Hstale; cbn [final].
      * destruct (head_after_update (calendarDate steps) steps (page_id row)
                    rows row others Hq) as (r & others' & Hq').
        { unfold has_id. apply String.eqb_refl. }
        rewrite pass_on_db, Hq', updated_row_is_fresh; done.
      * by rewrite pass_on_db, Hq, Hstale.
      * by rewrite pass_on_db, Hq, Hstale.
  - unfold reconcile_twice.
    rewrite (pass_on_json_db database_id steps rows).
    destruct (walking_on (calendarDate steps) rows) as [| row others] eqn:Hq.
    + destruct (encodable (create_properties steps)) eqn:Henc; [| done].
      intros _. cbn [final].
      pose proof (encodable_not_nan steps (or_introl Henc)) as Hnan. clear Henc.
      rewrite pass_on_json_db, walking_on_after_create, Hq, String.eqb_refl.
      cbn [app].
      rewrite written_row_is_fresh; done.
    + destruct (steps_need_update row steps) as [[|] | e] eqn:Hstale; [| | done].
      * destruct (encodable (update_properties steps)) eqn:Henc; [| done].
        intros _. cbn [final].
        pose proof (encodable_not_nan steps (or_intror Henc)) as Hnan. clear Henc.
        destruct (head_after_update (calendarDate steps) steps (page_id row)
                    rows row others Hq) as (r & others' & Hq').
        { unfold has_id. apply String.eqb_refl. }
        rewrite pass_on_json_db, Hq', updated_row_is_fresh; done.
      * intros _. cbn [final]. by rewrite pass_on_json_db, Hq, Hstale.
  - intros Hnan. rewrite pass_on_json_db.
    destruct (walking_on (calendarDate steps) rows) as [| row others].
    + destruct (encodable (create_properties steps)) eqn:Henc;
        [| split; [reflexivity | by eexists]].
      destruct (encodable_not_nan steps (or_introl Henc) Hnan).
    + pose proof (nan_is_stale row steps Hnan) as Hstale.
      destruct (steps_need_update row steps) as [[|] | e];
        [| done | split; [reflexivity | by eexists]].
      destruct (encodable (update_properties steps)) eqn:Henc;
        [| split; [reflexivity | by eexists]].
      destruct (encodable_not_nan steps (or_intror Henc) Hnan).
Qed.
End NotionFacts.

(** ** The claims about a pass that hold in every world and in the model *)
Section Passes.

Import Notion Examples.
Context {W : world}.
Implicit Types (s : state W) (steps : DailyStepRecord) (row : page)
  (rows : list page).

(** C4.  In the staleness comparison Total Steps and Step Goal are set
    against the record's raw values, [None] when the field is missing,
    and a stored 0 differs from [None]; the distance is set against
    round(d / 1000, 2) with d = 0 when totalDistance is missing.  For
    a record without totalDistance that value is 0.0, in the
    comparison, in the update and in the create. *)
Theorem only_distance_defaults_to_zero steps row (a b c : value) :
  properties row !! "Total Steps" = Some (Number a) ->
  properties row !! "Step Goal" = Some (Number b) ->
  properties row !! "Total Distance (km)" = Some (Number c) ->
  let raw (field : option Z) :=
    match field with Some n => VInt n | None => VNone end in
  let absent :=
    {| calendarDate := calendarDate steps; totalSteps := totalSteps steps;
       stepGoal := stepGoal steps; totalDistance := None |} in
  steps_need_update row steps =
    Ok (py_ne a (raw (totalSteps steps))
        || py_ne b (raw (stepGoal steps))
        || py_ne c (VFloat (PyFloat.round2
             (PyFloat.div (default (PyFloat.of_Z 0) (totalDistance steps))
                          (PyFloat.of_Z 1000)))))
  /\ py_ne (VInt 0) (raw None) = true
  /\ steps_need_update row absent =
       Ok (py_ne a (raw (totalSteps steps))
           || py_ne b (raw (stepGoal steps))
           || py_ne c (VFloat (S754_zero false)))
  /\ update_properties absent !! "Total Distance (km)" =
       Some (Number (VFloat (S754_zero false)))
  /\ create_properties absent !! "Total Distance (km)" =
       Some (Number (VFloat (S754_zero false))).
Proof.
  intros Ha Hb Hc raw absent.
  rewrite (steps_need_update_numbers row steps a b c Ha Hb Hc).
  rewrite (steps_need_update_numbers row absent a b c Ha Hb Hc).
  by destruct steps as [d n m [x |]].
Qed.

(** C9.  A pass starts with its query.  It writes a create only when
    the query found no row; when the query found rows, what it writes
    depends on the first of them only, and is no create.  On the model
    of the database, a pass keeps the ids distinct and at most one row
    per (date, "Walking"). *)
Theorem query_first_and_one_row_per_day (database_id : string) steps s rows :
  distinct_ids rows ->
  one_row_per_day rows ->
  (exists rest : list event,
     log (run (reconcile database_id steps) s) =
       Called (DatabasesQuery database_id
                 (And [DateEquals "Date" (calendarDate steps);
                       TitleEquals "Activity Type" "Walking"])) :: rest
     /\ writes (log (run (reconcile database_id steps) s)) = writes rest)
  /\ writes (log (run (reconcile database_id steps) s)) =
       match fst (respond W (the_query database_id steps) s) with
       | Ok [] =>
           [Called (PagesCreate database_id (create_properties steps))]
       | Ok (row :: _) =>
           match steps_need_update row steps with
           | Ok true =>
               [Called (PagesUpdate (page_id row) (update_properties steps))]
           | _ => []
           end
       | Err _ => []
       end
  /\ distinct_ids (final (run (W := db) (reconcile database_id steps) rows))
  /\ one_row_per_day (final (run (W := db) (reconcile database_id steps) rows)).
Proof.
  intros Hids Hone.
  split; [| split; [| by apply pass_keeps_invariant]];
    rewrite reconcile_unfold;
    destruct (respond W (the_query database_id steps) s) as [[results | e] s1];
    cbn [fst].
  - destruct results as [| row others];
      [| destruct (steps_need_update row steps) as [[|] | e]];
      rewrite ?run_from_seen; by eexists.
  - by eexists.
  - destruct results as [| row others].
    + unfold create_daily_steps, perform; simpl.
      by destruct (respond W _ s1) as [[[] | e] s2].
    + destruct (steps_need_update row steps) as [[|] | e]; try reflexivity.
      unfold update_daily_steps, perform; simpl.
      by destruct (respond W _ s1) as [[[] | e] s2].
  - reflexivity.
Qed.

(** C10.  Every update of a pass names exactly Activity Type, Total
    Steps, Step Goal and Total Distance (km), and no Date; every create
    sets Date to the record's calendarDate.  On the model of the
    database every row that was there before the pass keeps its id and
    all its properties but those four, its Date among them. *)
Theorem update_leaves_date_alone (database_id : string) steps s rows :
  Forall (dated_as_designed steps) (log (run (reconcile database_id steps) s))
  /\ Forall2 same_but_tracked rows
       (take (length rows)
             (final (run (W := db) (reconcile database_id steps) rows))).
Proof.
  split.
  - rewrite reconcile_unfold.
    destruct (respond W (the_query database_id steps) s) as [[results | e] s1].
    + destruct results as [| row others];
        [| destruct (steps_need_update row steps) as [[|] | e]].
      * unfold create_daily_steps, perform; simpl.
        destruct (respond W _ s1) as [[[] | e] s2]; by repeat constructor.
      * unfold update_daily_steps, perform; simpl.
        destruct (respond W _ s1) as [[[] | e] s2]; by repeat constructor.
      * by repeat constructor.
      * by repeat constructor.
    + by repeat constructor.
  - assert (Hrefl : forall l : list page, Forall2 same_but_tracked l l).
    { intros l. apply Forall_Forall2_diag, Forall_forall.
      intros r _. split; [done | by right]. }
    rewrite pass_on_db.
    destruct (walking_on (calendarDate steps) rows) as [| row others].
    + cbn [final]. rewrite take_app_length. apply Hrefl.
    + destruct (steps_need_update row steps) as [[|] | e]; cbn [final];
        try (rewrite firstn_all; apply Hrefl).
      rewrite <- (length_map (patch (page_id row) (update_properties steps)) rows)
        at 1.
      rewrite firstn_all.
      apply Forall2_fmap_r, Forall_Forall2_diag, Forall_forall.
      intros r _. simpl. unfold patch.
      destruct (has_id (page_id row) r); [| split; [done | by right]].
      split; [done |]. intros k; simpl.
      destruct (decide (k ∈ tracked)) as [Hin | Hout]; [by left | right].
      apply lookup_union_r, not_elem_of_dom. exact Hout.
Qed.

End Passes.

(** ** The model of the Garmin side *)
Section GarminFacts.
Import Garmin.
Variable svc : service.
Variable home : string.



(** A login with a password that returns a client has put the tokens
    of that client at [tokenstore], whatever was there. *)
Lemma password_login_overwrites (email password : string) (d : desk) :
  match returned (run (W := at_desk svc) (login_with_password home email password) d) with
  | Ok g =>
      exists tokens : nat,
        held <$> clients (final (run (W := at_desk svc)
                   (login_with_password home email password) d)) !! g =
          Some (Some tokens)
        /\ files (final (run (W := at_desk svc)
                           (login_with_password home email password) d)) =
             <[tokenstore home := tokens]> (files d)
  | Err _ => True
  end.
Proof.
  unfold run, login_with_password, perform, print; simpl.
  rewrite list_lookup_middle by reflexivity. simpl.
  destruct (answers svc email password) as [| st | tokens]; simpl; trivial.
  - destruct (keyboard d) as [| code rest]; simpl; trivial.
    destruct (redeems svc st code) as [tokens |]; simpl; trivial.
    rewrite list_lookup_alter_eq, list_lookup_middle by reflexivity. simpl.
    exists tokens.
    by rewrite list_lookup_alter_eq, list_lookup_middle by reflexivity.
  - rewrite list_lookup_alter_eq, list_lookup_middle by reflexivity. simpl.
    exists tokens.
    by rewrite list_lookup_alter_eq, list_lookup_middle by reflexivity.
Qed.
End GarminFacts.

(** ** Login *)

(** Case analysis on what the world answers to the next call. *)
Ltac answered :=
  match goal with
  | |- context [respond ?W ?c ?s] =>
      let r := fresh "r" in
      let e := fresh "e" in
      let s' := fresh "s" in
      destruct (respond W c s) as [[r | e] s'] eqn:?; simpl
  end.

(** Membership of a failure in a log that is written out. *)
Ltac failed_in H :=
  repeat (apply elem_of_cons in H as [H | H]; [try discriminate H |]);
  [.. | by apply elem_of_nil in H];
  injection H as ->; by split.

Section Auth.

Context {W : world}.
Variable home : string.
Implicit Types (s : state W) (email password : string).

Lemma login_unfold email password s :
  run (login_garmin_with_mfa home email password) s =
  let restore := run (login_with_tokens home) s in
  match returned restore with
  | Ok (Some g) => Build_outcome W garmin (Ok g) (final restore) (log restore)
  | Ok None =>
      run_from (login_with_password home email password)
               (final restore) (log restore)
  | Err e =>
      if is_Exception e
      then run_from (login_with_password home email password)
                    (final restore) (log restore)
      else Build_outcome W garmin (Err e) (final restore) (log restore)
  end.
Proof.
  unfold run at 1, login_garmin_with_mfa, mbind, prog_bind.
  rewrite run_from_bind, run_from_try_except.
  fold (run (login_with_tokens home) s). cbv zeta.
  destruct (returned (run (login_with_tokens home) s)) as [[g |] | e] eqn:Hr.
  - by rewrite Hr.
  - by rewrite Hr.
  - destruct (is_Exception e); [done | by rewrite Hr].
Qed.

(** The [try] block returns a client or raises; what it logs. *)
Lemma login_with_tokens_log s :
  match returned (run (login_with_tokens home) s) with
  | Ok (Some g) =>
      log (run (login_with_tokens home) s) =
        [Called (NewGarmin None None false);
         Called (GarminLogin g (Some (tokenstore home)));
         Printed "Garmin login via tokens gelukt."]
  | Ok None => False
  | Err e => last (log (run (login_with_tokens home) s)) = Some (Failed e)
  end.
Proof.
  unfold run, login_with_tokens, perform; simpl.
  answered; [| reflexivity]. by answered.
Qed.

Lemma restore_is_silent s :
  prompts (log (run (login_with_tokens home) s)) = []
  /\ dumps (log (run (login_with_tokens home) s)) = [].
Proof.
  unfold run, login_with_tokens, perform, print; simpl.
  answered; [| done]. by answered.
Qed.


(** After a restore that failed with an [Exception], the login with a
    password takes over from where the restore stopped. *)
Lemma fallback_takes_over email password s (e : exn) :
  returned (run (login_with_tokens home) s) = Err e ->
  is_Exception e = true ->
  run (login_garmin_with_mfa home email password) s =
  run_from (login_with_password home email password)
    (final (run (login_with_tokens home) s))
    (log (run (login_with_tokens home) s)).
Proof.
  intros Hrestore Hexn. rewrite login_unfold. cbv zeta.
  by rewrite Hrestore, Hexn.
Qed.

(** What [except Exception] does not catch goes to the caller. *)
Lemma interrupt_is_not_swallowed email password s (e : exn) :
  returned (run (login_with_tokens home) s) = Err e ->
  is_Exception e = false ->
  returned (run (login_garmin_with_mfa home email password) s) = Err e.
Proof.
  intros Hrestore Hexn. rewrite login_unfold. cbv zeta.
  by rewrite Hrestore, Hexn.
Qed.

(** Nothing in the login with a password handles an exception: the
    first call that raises ends it. *)
Lemma login_with_password_stops email password s (e : exn) :
  Failed e ∈ log (run (login_with_password home email password) s) ->
  returned (run (login_with_password home email password) s) = Err e
  /\ last (log (run (login_with_password home email password) s)) = Some (Failed e).
Proof.
  unfold run, login_with_password, perform, print; simpl.
  answered; [| intros H; failed_in H].
  answered; [| intros H; failed_in H].
  destruct r0 as [result1 result2]; simpl.
  destruct (eq_str result1 "needs_mfa"); simpl.
  - answered; [| intros H; failed_in H].
    answered; [| intros H; failed_in H].
    answered; intros H; failed_in H.
  - answered; intros H; failed_in H.
Qed.

End Auth.

(** C5.  When the restore from the cached tokens fails, with whatever
    exception, that exception is dropped: the login goes on with the
    login by password from the state in which the restore stopped, and
    its result is the result of that login alone.  There, each call is
    made once and the first one that raises ends the run: when the
    construction of the client, the login, the prompt, the resumption
    with the code or the dump of the tokens raises, the caller gets that
    exception, the exception is the last entry of the log, and no call
    is made again. *)
Theorem restore_failure_is_swallowed_later_failure_is_not {W : world}
    (home email password : string) (s : state W) (e : exn) :
  returned (run (login_with_tokens home) s) = Err e ->
  is_Exception e = true ->
  let restore := run (login_with_tokens home) s in
  let fallback := run (login_with_password home email password) (final restore) in
  let whole := run (login_garmin_with_mfa home email password) s in
  let ended (r : result garmin) (s' : state W) (l : list event) :=
    returned whole = r /\ final whole = s' /\ log whole = log restore ++ l in
  let announce :=
    Printed "Geen geldige tokens. Nieuwe Garmin login (met MFA) ..." in
  let create := NewGarmin (Some email) (Some password) true in
  let prompt := Input "Voer Garmin MFA code uit je mail in: " in
  let saved := Printed "Nieuwe Garmin tokens opgeslagen." in
  (returned whole = returned fallback
   /\ final whole = final fallback
   /\ log whole = log restore ++ log fallback)
  /\ (forall e' : exn,
        Failed e' ∈ log fallback ->
        returned whole = Err e' /\ last (log whole) = Some (Failed e'))
  /\ match respond W create (final restore) with
     | (Err e1, s1) => ended (Err e1) s1 [announce; Called create; Failed e1]
     | (Ok g, s1) =>
         let login := GarminLogin g None in
         let dump := GarthDump g (tokenstore home) in
         match respond W login s1 with
         | (Err e2, s2) =>
             ended (Err e2) s2 [announce; Called create; Called login; Failed e2]
         | (Ok (result1, result2), s2) =>
             if eq_str result1 "needs_mfa" then
               match respond W prompt s2 with
               | (Err e3, s3) =>
                   ended (Err e3) s3
                     [announce; Called create; Called login; Called prompt;
                      Failed e3]
               | (Ok mfa_code, s3) =>
                   let resume := GarminResumeLogin g result2 mfa_code in
                   match respond W resume s3 with
                   | (Err e4, s4) =>
                       ended (Err e4) s4
                         [announce; Called create; Called login; Called prompt;
                          Called resume; Failed e4]
                   | (Ok _, s4) =>
                       match respond W dump s4 with
                       | (Err e5, s5) =>
                           ended (Err e5) s5
                             [announce; Called create; Called login;
                              Called prompt; Called resume; Called dump;
                              Failed e5]
                       | (Ok _, s5) =>
                           ended (Ok g) s5
                             [announce; Called create; Called login;
                              Called prompt; Called resume; Called dump; saved]
                       end
                   end
               end
             else
               match respond W dump s2 with
               | (Err e5, s5) =>
                   ended (Err e5) s5
                     [announce; Called create; Called login; Called dump;
                      Failed e5]
               | (Ok _, s5) =>
                   ended (Ok g) s5
                     [announce; Called create; Called login; Called dump; saved]
               end
         end
     end.
Proof.
  intros Hrestore Hexn restore fallback whole ended announce create prompt saved.
  assert (Hwhole : returned whole = returned fallback
                   /\ final whole = final fallback
                   /\ log whole = log restore ++ log fallback).
  { subst restore fallback whole.
    by rewrite (fallback_takes_over _ _ _ _ e), run_from_seen. }
  split; [exact Hwhole |]. split.
  - intros e' Hin. destruct Hwhole as (-> & _ & ->).
    destruct (login_with_password_stops _ _ _ _ _ Hin) as [Hret Hlast].
    split; [exact Hret |].
    subst fallback. by rewrite last_app, Hlast.
  - subst ended. cbv beta. destruct Hwhole as (-> & -> & ->).
    subst fallback announce create prompt saved.
    generalize (final restore). generalize (log restore). clear.
    intros before s0.
    unfold run, login_with_password, perform, print; simpl.
    destruct (respond W _ s0) as [[g | e1] s1]; simpl; [| done].
    destruct (respond W _ s1) as [[[result1 result2] | e2] s2]; simpl; [| done].
    destruct (eq_str result1 "needs_mfa"); simpl.
    + destruct (respond W _ s2) as [[mfa_code | e3] s3]; simpl; [| done].
      destruct (respond W _ s3) as [[[] | e4] s4]; simpl; [| done].
      by destruct (respond W _ s4) as [[[] | e5] s5].
    + by destruct (respond W _ s2) as [[[] | e5] s5].
Qed.


(** C7.  When the restore fails and the login by password answers with
    a pair, the run prompts exactly once if the first component is
    "needs_mfa" and not at all otherwise.  If the login then returns, it
    returns the client of that login, and the log holds one dump of this
    client's tokens to the token store, after every prompt.  On the model
    of the Garmin side a login by password that returns has put the
    tokens of its client at the token store, in place of whatever was
    there. *)
Theorem fallback_prompts_once_then_dumps {W : world}
    (home email password : string) (s : state W) (e : exn) (g : garmin)
    (result1 result2 : pyobj) (s2 s3 : state W)
    (svc : Garmin.service) (d : Garmin.desk) :
  returned (run (login_with_tokens home) s) = Err e ->
  is_Exception e = true ->
  respond W (NewGarmin (Some email) (Some password) true)
    (final (run (login_with_tokens home) s)) = (Ok g, s2) ->
  respond W (GarminLogin g None) s2 = (Ok (result1, result2), s3) ->
  let whole := run (login_garmin_with_mfa home email password) s in
  prompts (log whole) =
    (if eq_str result1 "needs_mfa"
     then [Called (Input "Voer Garmin MFA code uit je mail in: ")]
     else [])
  /\ match returned whole with
     | Ok g' =>
         g' = g
         /\ exists before after : list event,
              log whole =
                before ++ Called (GarthDump g (tokenstore home)) :: after
              /\ prompts before = prompts (log whole)
              /\ dumps before = [] /\ dumps after = []
     | Err _ => True
     end
  /\ match returned (run (W := Garmin.at_desk svc)
                       (login_with_password home email password) d) with
     | Ok g' =>
         exists tokens : nat,
           Garmin.held <$>
             Garmin.clients (final (run (W := Garmin.at_desk svc)
                (login_with_password home email password) d)) !! g' =
             Some (Some tokens)
           /\ Garmin.files (final (run (W := Garmin.at_desk svc)
                (login_with_password home email password) d)) =
                <[tokenstore home := tokens]> (Garmin.files d)
     | Err _ => True
     end.
Proof.
  intros Hrestore Hexn Hnew Hlogin whole.
  match goal with
  | |- ?A /\ ?B /\ ?C =>
      enough (A /\ B) as [HA HB]
        by (split; [exact HA | split; [exact HB | apply password_login_overwrites]])
  end.
  subst whole.
  rewrite (fallback_takes_over _ _ _ _ e Hrestore Hexn), run_from_seen.
  cbn [returned log].
  destruct (restore_is_silent home s) as [Hp Hd].
  unfold prompts, dumps in *. clear Hrestore.
  set (restore := log (run (login_with_tokens home) s)) in *.
  set (s1 := final (run (login_with_tokens home) s)) in *.
  clearbody restore s1.
  unfold run, login_with_password, perform, print; simpl.
  rewrite Hnew; simpl. rewrite Hlogin; simpl.
  destruct (eq_str result1 "needs_mfa"); simpl.
  - answered.
    + answered.
      * answered.
        -- rewrite List.filter_app, Hp. split; [done |]. split; [done |].
           eexists (restore ++ [_; _; _; _; _]), [_].
           rewrite <- app_assoc. split; [reflexivity |].
           rewrite !List.filter_app, Hp, Hd. by simpl.
        -- by rewrite List.filter_app, Hp.
      * by rewrite List.filter_app, Hp.
    + by rewrite List.filter_app, Hp.
  - answered.
    + rewrite List.filter_app, Hp. split; [done |]. split; [done |].
      eexists (restore ++ [_; _; _]), [_].
      rewrite <- app_assoc. split; [reflexivity |].
      rewrite !List.filter_app, Hp, Hd. by simpl.
    + by rewrite List.filter_app, Hp.
Qed.

(** ** The fetch window *)
Section Fetch.

Context {W : world}.
Implicit Types (s : state W) (g : garmin).

(** A fetch loop that comes to its end has fetched every day of its
    range, in order, once. *)
Lemma fetch_days_fetches g (days : list Date.date) :
  forall s (daily_steps : list DailyStepRecord) (seen : list event),
    match returned (run_from (fetch_days g days daily_steps) s seen) with
    | Ok _ =>
        fetches (log (run_from (fetch_days g days daily_steps) s seen)) =
          fetches seen ++ map (fetch_of g) days
    | Err _ => True
    end.
Proof.
  induction days as [| d rest IH]; intros s daily_steps seen; simpl.
  - by rewrite app_nil_r.
  - destruct (respond W _ s) as [[fetched | e] s']; simpl; [| done].
    specialize (IH s' (daily_steps ++ fetched)
                   (seen ++ [Called (GetDailySteps g (Date.isoformat d)
                                                   (Date.isoformat d))])).
    destruct (returned (run_from (fetch_days g rest (daily_steps ++ fetched)) s' _));
      [| done].
    rewrite IH. unfold fetches. rewrite List.filter_app. simpl.
    by rewrite <- app_assoc.
Qed.

Lemma daterange_spec (startdate today d : Date.date) :
  d ∈ daterange startdate today <-> startdate <= d < today.
Proof.
  unfold daterange, range, Date.add_days, Date.days_between.
  rewrite list_elem_of_In, in_map_iff. split.
  - intros (x & <- & Hx). apply list_elem_of_In, elem_of_seqZ in Hx. lia.
  - intros Hd. exists (d - startdate). split; [lia |].
    apply list_elem_of_In, elem_of_seqZ. lia.
Qed.

Lemma daterange_one_day (today : Date.date) :
  daterange (Date.sub_days today 1) today = [today - 1].
Proof.
  unfold daterange, range, Date.sub_days, Date.add_days, Date.days_between.
  replace (today - (today - 1)) with 1 by lia.
  change (seqZ 0 1) with [0]. simpl. f_equal. lia.
Qed.

End Fetch.

(** C8, as amended.  The window runs from the day before the first
    reading of the clock up to, and without, the day of the second
    reading, and a fetch that comes to its end has queried the source
    once for each of its days.  When both readings give the same day,
    the window is that day's yesterday alone and the source is queried
    exactly once, for it. *)
Theorem one_day_window_when_clock_agrees {W : world} (g : garmin)
    (s s1 s2 : state W) (today today' : Date.date) :
  respond W DateToday s = (Ok today, s1) ->
  respond W DateToday s1 = (Ok today', s2) ->
  (forall d : Date.date,
     d ∈ daterange (Date.sub_days today 1) today' <-> today - 1 <= d < today')
  /\ match returned (run (get_all_daily_steps g) s) with
     | Ok _ =>
         fetches (log (run (get_all_daily_steps g) s)) =
           map (fetch_of g) (daterange (Date.sub_days today 1) today')
     | Err _ => True
     end
  /\ (if decide (today' = today)
      then daterange (Date.sub_days today 1) today' = [today - 1]
           /\ fetches (log (run (get_all_daily_steps g) s)) =
                [Called (GetDailySteps g (Date.isoformat (today - 1))
                                         (Date.isoformat (today - 1)))]
      else True).
Proof.
  intros Hfirst Hsecond.
  split; [intros d; apply daterange_spec |].
  assert (Hrun : run (get_all_daily_steps g) s =
                 run_from (fetch_days g (daterange (Date.sub_days today 1) today') [])
                          s2 [Called DateToday; Called DateToday]).
  { unfold run, get_all_daily_steps, perform; simpl.
    rewrite Hfirst; simpl. by rewrite Hsecond. }
  rewrite Hrun. split.
  - apply (fetch_days_fetches g _ s2 [] [Called DateToday; Called DateToday]).
  - destruct (decide (today' = today)) as [-> |]; [| done].
    rewrite daterange_one_day. split; [done |]. simpl.
    by destruct (respond W _ s2) as [[fetched | e] s3].
Qed.

(** ** The claims at sample inputs *)

(** C1 on an empty database: the first of May is created with 6.0 km. *)
Lemma absent_row_is_created_witness :
  respond Notion.db (the_query "db" Examples.may_day) [] = (Ok [], [])
  /\ exists props : gmap string property,
       writes (log (run (W := Notion.db) (reconcile "db" Examples.may_day) [])) =
         [Called (PagesCreate "db" props)]
       /\ props !! "Total Distance (km)" = Some (Number (VFloat Examples.six)).
Proof.
  split; [reflexivity |].
  destruct (absent_row_is_created (W := Notion.db) "db" Examples.may_day [] []
              eq_refl) as (props & Hwrites & _ & _ & _ & _ & Hkm & _).
  exists props. split; [exact Hwrites | exact Hkm].
Defined.

(** C2 on a row with 7000 steps: one update. *)
Lemma present_row_is_updated_iff_stale_witness :
  respond Notion.db (the_query "db" Examples.may_day) [Examples.stale_row] =
    (Ok [Examples.stale_row], [Examples.stale_row])
  /\ exists props : gmap string property,
       writes (log (run (W := Notion.db) (reconcile "db" Examples.may_day)
                      [Examples.stale_row])) =
         [Called (PagesUpdate "row-1" props)]
       /\ props !! "Total Steps" = Some (Number (VInt 8000)).
Proof.
  split; [reflexivity |].
  destruct (present_row_is_updated_iff_stale (W := Notion.db) "db"
              Examples.may_day [Examples.stale_row] [Examples.stale_row]
              Examples.stale_row [] (VInt 7000) (VInt 10000) (VFloat Examples.six)
              eq_refl eq_refl eq_refl eq_refl)
    as (props & Hwrites & _ & Hsteps & _).
  exists props. split; [exact Hwrites | exact Hsteps].
Defined.

(** C3 on the first of May, over a row that the first pass updates;
    and on a record with a NaN distance, which the database behind JSON
    does not store. *)
Lemma second_pass_writes_nothing_witness :
  (totalDistance Examples.may_day <> Some PyFloat.nan
   /\ writes (log (reconcile_twice (W := Notion.db) "db" Examples.may_day
                     [Examples.stale_row])) = [])
  /\ (returned (run (W := Notion.json_db) (reconcile "db" Examples.may_day)
                  [Examples.stale_row]) = Ok tt
      /\ log (reconcile_twice (W := Notion.json_db) "db" Examples.may_day
                 [Examples.stale_row]) =
           [Called (the_query "db" Examples.may_day)])
  /\ (totalDistance Examples.nan_day = Some PyFloat.nan
      /\ final (run (W := Notion.json_db) (reconcile "db" Examples.nan_day) []) =
           []).
Proof.
  assert (H : totalDistance Examples.may_day <> Some PyFloat.nan) by discriminate.
  assert (H1 : returned (run (W := Notion.json_db) (reconcile "db" Examples.may_day)
                           [Examples.stale_row]) = Ok tt)
    by (vm_compute; reflexivity).
  destruct (second_pass_writes_nothing "db" Examples.may_day [Examples.stale_row])
    as (Hdb & Hjson & _).
  destruct (second_pass_writes_nothing "db" Examples.nan_day [])
    as (_ & _ & Hrefused).
  split; [split; [exact H | exact (Hdb H)] |].
  split; [split; [exact H1 | exact (proj2 (proj2 (Hjson H1)))] |].
  split; [reflexivity | exact (proj1 (Hrefused eq_refl))].
Defined.

(** C4 on a record without distance or goal. *)
Lemma only_distance_defaults_to_zero_witness :
  steps_need_update Examples.stale_row Examples.no_distance = Ok true
  /\ create_properties Examples.no_distance !! "Total Distance (km)" =
       Some (Number (VFloat (S754_zero false))).
Proof.
  destruct (only_distance_defaults_to_zero Examples.no_distance Examples.stale_row
              (VInt 7000) (VInt 10000) (VFloat Examples.six)
              eq_refl eq_refl eq_refl) as (Hstale & _ & _ & _ & Hcreate).
  split; [exact Hstale | exact Hcreate].
Defined.

(** C5 with an expired token bundle: the login goes on to the login by
    password.  With the right password and code it returns the new
    client; with a wrong password the login raises, with a wrong code
    the resumption raises, and with a credential store that cannot be
    written the dump raises: each time the caller gets that exception
    right after the call, and nothing is tried again. *)
Lemma restore_failure_is_swallowed_later_failure_is_not_witness :
  (returned (run (W := Garmin.at_desk Examples.svc)
               (login_with_tokens "/home/u") Examples.expired) =
     Err (Error "GarminConnectAuthenticationError")
   /\ is_Exception (Error "GarminConnectAuthenticationError") = true)
  /\ returned (run (W := Garmin.at_desk Examples.svc)
                 (login_garmin_with_mfa "/home/u" "me@example.org" "secret")
                 Examples.expired) = Ok 1%nat
  /\ (returned (run (W := Garmin.at_desk Examples.svc)
                  (login_garmin_with_mfa "/home/u" "me@example.org" "guess")
                  Examples.expired) =
        Err (Error "GarminConnectAuthenticationError")
      /\ log (run (W := Garmin.at_desk Examples.svc)
                 (login_garmin_with_mfa "/home/u" "me@example.org" "guess")
                 Examples.expired) =
           [Called (NewGarmin None None false);
            Called (GarminLogin 0%nat (Some (tokenstore "/home/u")));
            Failed (Error "GarminConnectAuthenticationError");
            Printed "Geen geldige tokens. Nieuwe Garmin login (met MFA) ...";
            Called (NewGarmin (Some "me@example.org") (Some "guess") true);
            Called (GarminLogin 1%nat None);
            Failed (Error "GarminConnectAuthenticationError")])
  /\ (returned (run (W := Garmin.at_desk Examples.svc)
                  (login_garmin_with_mfa "/home/u" "me@example.org" "secret")
                  Samples.wrong_code) =
        Err (Error "GarminConnectAuthenticationError")
      /\ log (run (W := Garmin.at_desk Examples.svc)
                 (login_garmin_with_mfa "/home/u" "me@example.org" "secret")
                 Samples.wrong_code) =
           [Called (NewGarmin None None false);
            Called (GarminLogin 0%nat (Some (tokenstore "/home/u")));
            Failed (Error "GarminConnectAuthenticationError");
            Printed "Geen geldige tokens. Nieuwe Garmin login (met MFA) ...";
            Called (NewGarmin (Some "me@example.org") (Some "secret") true);
            Called (GarminLogin 1%nat None);
            Called (Input "Voer Garmin MFA code uit je mail in: ");
            Called (GarminResumeLogin 1%nat (PyOpaque 3) "000000");
            Failed (Error "GarminConnectAuthenticationError")])
  /\ (returned (run (W := Samples.read_only Examples.svc)
                  (login_garmin_with_mfa "/home/u" "me@example.org" "secret")
                  Examples.expired) = Err (Error "PermissionError")
      /\ log (run (W := Samples.read_only Examples.svc)
                 (login_garmin_with_mfa "/home/u" "me@example.org" "secret")
                 Examples.expired) =
           [Called (NewGarmin None None false);
            Called (GarminLogin 0%nat (Some (tokenstore "/home/u")));
            Failed (Error "GarminConnectAuthenticationError");
            Printed "Geen geldige tokens. Nieuwe Garmin login (met MFA) ...";
            Called (NewGarmin (Some "me@example.org") (Some "secret") true);
            Called (GarminLogin 1%nat None);
            Called (Input "Voer Garmin MFA code uit je mail in: ");
            Called (GarminResumeLogin 1%nat (PyOpaque 3) "123456");
            Called (GarthDump 1%nat (tokenstore "/home/u"));
            Failed (Error "PermissionError")]).
Proof.
  split; [split; reflexivity |].
  split.
  { destruct (restore_failure_is_swallowed_later_failure_is_not
                (W := Garmin.at_desk Examples.svc) "/home/u" "me@example.org"
                "secret" Examples.expired (Error "GarminConnectAuthenticationError")
                eq_refl eq_refl) as (_ & _ & (Hreturned & _)).
    exact Hreturned. }
  split.
  { destruct (restore_failure_is_swallowed_later_failure_is_not
                (W := Garmin.at_desk Examples.svc) "/home/u" "me@example.org"
                "guess" Examples.expired (Error "GarminConnectAuthenticationError")
                eq_refl eq_refl) as (_ & _ & (Hreturned & _ & Hlog)).
    split; [exact Hreturned | exact Hlog]. }
  split.
  { destruct (restore_failure_is_swallowed_later_failure_is_not
                (W := Garmin.at_desk Examples.svc) "/home/u" "me@example.org"
                "secret" Samples.wrong_code (Error "GarminConnectAuthenticationError")
                eq_refl eq_refl) as (_ & _ & (Hreturned & _ & Hlog)).
    split; [exact Hreturned | exact Hlog]. }
  destruct (restore_failure_is_swallowed_later_failure_is_not
              (W := Samples.read_only Examples.svc) "/home/u" "me@example.org"
              "secret" Examples.expired (Error "GarminConnectAuthenticationError")
              eq_refl eq_refl) as (_ & _ & (Hreturned & _ & Hlog)).
  split; [exact Hreturned | exact Hlog].
Defined.


(** C7 with an expired token bundle and a second factor. *)
Lemma fallback_prompts_once_then_dumps_witness :
  prompts (log (run (W := Garmin.at_desk Examples.svc)
                  (login_garmin_with_mfa "/home/u" "me@example.org" "secret")
                  Examples.expired)) =
    [Called (Input "Voer Garmin MFA code uit je mail in: ")]
  /\ Garmin.files (final (run (W := Garmin.at_desk Examples.svc)
                 (login_with_password "/home/u" "me@example.org" "secret")
                 Examples.expired)) !! tokenstore "/home/u" = Some 8%nat.
Proof.
  destruct (fallback_prompts_once_then_dumps
              (W := Garmin.at_desk Examples.svc) "/home/u" "me@example.org"
              "secret" Examples.expired (Error "GarminConnectAuthenticationError")
              1%nat (PyStr "needs_mfa") (PyOpaque 3) _ _
              Examples.svc Examples.expired eq_refl eq_refl eq_refl eq_refl)
    as (Hprompts & _ & _).
  split; [exact Hprompts | reflexivity].
Defined.

(** C8: when midnight passes between the two readings of the clock, two
    days are fetched. *)
Lemma midnight_between_readings_fetches_two_days :
  fetches (log (run (W := Garmin.at_desk Examples.svc) (get_all_daily_steps 0%nat)
                  Examples.at_midnight)) =
    [Called (GetDailySteps 0%nat "2024-04-30" "2024-04-30");
     Called (GetDailySteps 0%nat "2024-05-01" "2024-05-01")]
  /\ length (fetches (log (run (W := Garmin.at_desk Examples.svc)
                             (get_all_daily_steps 0%nat) Examples.at_midnight)))
     <> 1%nat.
Proof. split; [vm_compute; reflexivity | vm_compute; discriminate]. Qed.

(** C8, as amended, on the second of May. *)
Lemma one_day_window_when_clock_agrees_witness :
  fst (respond (Garmin.at_desk Examples.svc) DateToday Examples.logged_in) =
    Ok Examples.may_2nd
  /\ fetches (log (run (W := Garmin.at_desk Examples.svc)
                     (get_all_daily_steps 0%nat) Examples.logged_in)) =
       [Called (GetDailySteps 0%nat "2024-05-01" "2024-05-01")].
Proof.
  split; [reflexivity |].
  destruct (one_day_window_when_clock_agrees (W := Garmin.at_desk Examples.svc)
              0%nat Examples.logged_in _ _ Examples.may_2nd Examples.may_2nd
              eq_refl eq_refl) as (_ & _ & Hsame).
  destruct (decide (Examples.may_2nd = Examples.may_2nd)) as [_ | Hne];
    [exact (proj2 Hsame) | by destruct Hne].
Defined.

(** C9 on a database with one row. *)
Lemma query_first_and_one_row_per_day_witness :
  Notion.distinct_ids [Examples.stale_row]
  /\ Notion.one_row_per_day [Examples.stale_row]
  /\ Notion.one_row_per_day
       (final (run (W := Notion.db) (reconcile "db" Examples.may_day)
                 [Examples.stale_row])).
Proof.
  assert (Hids : Notion.distinct_ids [Examples.stale_row])
    by apply NoDup_singleton.
  assert (Hone : Notion.one_row_per_day [Examples.stale_row]).
  { intros d. unfold Notion.walking_on. cbn [List.filter].
    destruct (Notion.matches _ _); simpl; lia. }
  split; [exact Hids |]. split; [exact Hone |].
  destruct (query_first_and_one_row_per_day (W := Notion.db) "db"
              Examples.may_day [Examples.stale_row] [Examples.stale_row]
              Hids Hone) as (_ & _ & _ & Hafter).
  exact Hafter.
Defined.

(** * Further properties *)

(** ** Edges of a pass *)
Section PassEdges.

Context {W : world}.
Implicit Types (s : state W) (steps : DailyStepRecord) (row : page).

(** X1.  The comparison stops at the first number that differs: a row
    whose Total Steps differs from the record's is found stale, and is
    updated, whatever its Step Goal and Total Distance (km) are, even if
    they are missing. *)
Theorem stale_steps_hide_missing_properties (database_id : string) steps s s1
    row (others : list page) (a : value) :
  respond W (the_query database_id steps) s = (Ok (row :: others), s1) ->
  properties row !! "Total Steps" = Some (Number a) ->
  py_ne a (get_int (totalSteps steps)) = true ->
  steps_need_update row steps = Ok true
  /\ writes (log (run (reconcile database_id steps) s)) =
       [Called (PagesUpdate (page_id row) (update_properties steps))].
Proof.
  intros Hquery Ha Hne.
  assert (Hstale : steps_need_update row steps = Ok true).
  { unfold steps_need_update, number_of. by rewrite Ha, Hne. }
  split; [exact Hstale |].
  rewrite reconcile_unfold, Hquery, Hstale.
  unfold update_daily_steps, perform; simpl.
  by destruct (respond W _ s1) as [[[] | e] s2].
Qed.

(** X2.  A row that the query finds without a number under Total Steps
    makes the comparison raise [KeyError], for the key "Total Steps" if
    the property is missing and for the key "number" if it is of another
    kind; the pass ends with that error after its query, without a
    write. *)
Theorem missing_number_raises_key_error (database_id : string) steps s s1
    row (others : list page) (found : option property) :
  respond W (the_query database_id steps) s = (Ok (row :: others), s1) ->
  properties row !! "Total Steps" = found ->
  (forall v : value, found <> Some (Number v)) ->
  let e := KeyError (match found with
                     | None => "Total Steps"
                     | Some _ => "number"
                     end) in
  steps_need_update row steps = Err e
  /\ run (reconcile database_id steps) s =
       Build_outcome W unit (Err e) s1 [Called (the_query database_id steps)].
Proof.
  intros Hquery Hfound Hnot e.
  assert (Herr : steps_need_update row steps = Err e).
  { unfold steps_need_update, number_of. rewrite Hfound. subst e.
    destruct found as [[t | d | v] |]; try reflexivity. by destruct (Hnot v). }
  split; [exact Herr |].
  by rewrite reconcile_unfold, Hquery, Herr.
Qed.

(** X3.  Nothing in a pass handles an exception: when the query, the
    create or the update raises, the pass ends with that exception, and
    the failed call is the last thing it did. *)
Theorem failed_call_ends_pass (database_id : string) steps s (e : exn) :
  Failed e ∈ log (run (reconcile database_id steps) s) ->
  returned (run (reconcile database_id steps) s) = Err e
  /\ last (log (run (reconcile database_id steps) s)) = Some (Failed e).
Proof.
  rewrite reconcile_unfold.
  destruct (respond W (the_query database_id steps) s) as [[results | e0] s1].
  - destruct results as [| row others];
      [| destruct (steps_need_update row steps) as [[|] | e0]].
    + unfold create_daily_steps, perform; simpl.
      answered; intros H; failed_in H.
    + unfold update_daily_steps, perform; simpl.
      answered; intros H; failed_in H.
    + intros H; failed_in H.
    + intros H; failed_in H.
  - intros H; failed_in H.
Qed.

(** A pass makes one query and at most one write. *)
Lemma pass_counts (database_id : string) steps s :
  queries (log (run (reconcile database_id steps) s)) =
    [Called (the_query database_id steps)]
  /\ (length (writes (log (run (reconcile database_id steps) s))) <= 1)%nat.
Proof.
  rewrite reconcile_unfold.
  destruct (respond W (the_query database_id steps) s) as [[results | e0] s1].
  - destruct results as [| row others];
      [| destruct (steps_need_update row steps) as [[|] | e0]].
    + unfold create_daily_steps, perform; simpl.
      answered; split; (reflexivity || (simpl; lia)).
    + unfold update_daily_steps, perform; simpl.
      answered; split; (reflexivity || (simpl; lia)).
    + split; [reflexivity | simpl; lia].
    + split; [reflexivity | simpl; lia].
  - split; [reflexivity | simpl; lia].
Qed.

(** The loop of [main], one record at a time. *)
Lemma reconcile_all_cons (database_id : string) steps (rest : list DailyStepRecord) s :
  run (reconcile_all database_id (steps :: rest)) s =
  match returned (run (reconcile database_id steps) s) with
  | Ok _ =>
      run_from (reconcile_all database_id rest)
        (final (run (reconcile database_id steps) s))
        (log (run (reconcile database_id steps) s))
  | Err e =>
      Build_outcome W unit (Err e)
        (final (run (reconcile database_id steps) s))
        (log (run (reconcile database_id steps) s))
  end.
Proof.
  unfold run at 1. cbn [reconcile_all]. unfold mbind, prog_bind.
  by rewrite run_from_bind.
Qed.

Lemma reconcile_all_app (database_id : string)
    (before after : list DailyStepRecord) :
  forall s,
    run (reconcile_all database_id (before ++ after)) s =
    match returned (run (reconcile_all database_id before) s) with
    | Ok _ =>
        run_from (reconcile_all database_id after)
          (final (run (reconcile_all database_id before) s))
          (log (run (reconcile_all database_id before) s))
    | Err e =>
        Build_outcome W unit (Err e)
          (final (run (reconcile_all database_id before) s))
          (log (run (reconcile_all database_id before) s))
    end.
Proof.
  induction before as [| first more IH]; intros s; [reflexivity |].
  cbn [app]. rewrite !reconcile_all_cons.
  destruct (returned (run (reconcile database_id first) s)) as [[] | e];
    [| reflexivity].
  rewrite (run_from_seen (reconcile_all database_id (more ++ after))).
  rewrite (run_from_seen (reconcile_all database_id more)).
  rewrite IH. cbn [returned final log].
  destruct (returned (run (reconcile_all database_id more) _)) as [[] | e].
  - rewrite (run_from_seen (reconcile_all database_id after) _
               (log (run (reconcile database_id first) s) ++ _)).
    rewrite (run_from_seen (reconcile_all database_id after)).
    cbn [returned final log]. by rewrite app_assoc.
  - reflexivity.
Qed.

(** X4.  The loop of [main] queries for the records in their order,
    once each, up to the record at which it stops, and for all of them
    when it returns; it never writes more often than it queries. *)
Theorem batch_queries_in_order_writes_at_most_once (database_id : string)
    (daily_steps : list DailyStepRecord) :
  forall s,
    let l := log (run (reconcile_all database_id daily_steps) s) in
    queries l `prefix_of` queries_for database_id daily_steps
    /\ (length (writes l) <= length (queries l))%nat
    /\ match returned (run (reconcile_all database_id daily_steps) s) with
       | Ok _ => queries l = queries_for database_id daily_steps
       | Err _ => True
       end.
Proof.
  induction daily_steps as [| steps rest IH]; intros s; cbv zeta;
    unfold queries_for in *.
  - by split; [exists [] | split].
  - rewrite reconcile_all_cons.
    destruct (pass_counts database_id steps s) as [Hq Hw].
    destruct (returned (run (reconcile database_id steps) s)) as [[] | e].
    + rewrite run_from_seen. cbn [log returned].
      specialize (IH (final (run (reconcile database_id steps) s))).
      cbv zeta in IH. destruct IH as (Hpre & Hlen & Hall).
      unfold queries, writes in *. rewrite !List.filter_app, !length_app, Hq.
      split; [| split].
      * cbn [map app]. by apply prefix_cons.
      * simpl in *. lia.
      * destruct (returned (run (reconcile_all database_id rest) _)); [| done].
        cbn [map app]. by rewrite Hall.
    + cbn [log returned]. rewrite Hq. split; [| split; [simpl in *; lia | done]].
      cbn [map]. apply prefix_cons, prefix_nil.
Qed.

(** X5.  The loop of [main] does not isolate its records: when the pass
    over one record raises, after the records before it went through,
    the loop ends with that exception there, and the records after it
    are neither queried nor written. *)
Theorem batch_stops_at_first_failure (database_id : string)
    (done_before : list DailyStepRecord) steps (rest : list DailyStepRecord)
    s (e : exn) :
  returned (run (reconcile_all database_id done_before) s) = Ok tt ->
  returned (run (reconcile database_id steps)
              (final (run (reconcile_all database_id done_before) s))) = Err e ->
  returned (run (reconcile_all database_id (done_before ++ steps :: rest)) s) = Err e
  /\ final (run (reconcile_all database_id (done_before ++ steps :: rest)) s) =
       final (run (reconcile database_id steps)
                (final (run (reconcile_all database_id done_before) s)))
  /\ log (run (reconcile_all database_id (done_before ++ steps :: rest)) s) =
       log (run (reconcile_all database_id done_before) s) ++
       log (run (reconcile database_id steps)
              (final (run (reconcile_all database_id done_before) s))).
Proof.
  intros Hok Herr. rewrite reconcile_all_app, Hok.
  rewrite run_from_seen, reconcile_all_cons, Herr. by cbn [returned final log].
Qed.

End PassEdges.

(** ** Batches against the model of the database *)
Section Batches.

Import Notion.
Implicit Types (rows : list page) (row : page) (steps other : DailyStepRecord)
  (daily_steps : list DailyStepRecord).

(** A pass over a settled record only queries. *)
Lemma settled_pass (database_id : string) steps rows :
  settled steps rows ->
  run (W := db) (reconcile database_id steps) rows =
  Build_outcome db unit (Ok tt) rows [Called (the_query database_id steps)].
Proof.
  intros (row & others & Hq & Hfresh). by rewrite pass_on_db, Hq, Hfresh.
Qed.

(** A pass that returns leaves its record settled. *)
Lemma returned_pass_settles (database_id : string) steps rows :
  totalDistance steps <> Some PyFloat.nan ->
  returned (run (W := db) (reconcile database_id steps) rows) = Ok tt ->
  settled steps (final (run (W := db) (reconcile database_id steps) rows)).
Proof.
  intros Hnan. rewrite pass_on_db.
  destruct (walking_on (calendarDate steps) rows) as [| row others] eqn:Hq.
  - intros _. cbn [final]. eexists _, _. split.
    + by rewrite walking_on_after_create, Hq, String.eqb_refl.
    + by apply written_row_is_fresh.
  - destruct (steps_need_update row steps) as [[|] | e] eqn:Hstale;
      cbn [final returned]; intros Hret; [| | discriminate Hret].
    + destruct (head_after_update (calendarDate steps) steps (page_id row)
                  rows row others Hq) as (r & others' & Hq').
      { unfold has_id. apply String.eqb_refl. }
      eexists _, _. split; [exact Hq' |]. by apply updated_row_is_fresh.
    + by eexists _, _.
Qed.

Lemma filter_map_fixed {A : Type} (P : A -> bool) (f : A -> A) (l : list A) :
  (forall x, In x l -> P (f x) = P x /\ (P x = true -> f x = x)) ->
  List.filter P (map f l) = List.filter P l.
Proof.
  induction l as [| x l IH]; intros Hf; [reflexivity |]; cbn [map List.filter].
  destruct (Hf x (or_introl eq_refl)) as [HP Hfix]. rewrite HP.
  rewrite IH by (intros y Hy; apply Hf; by right).
  destruct (P x); [| reflexivity]. by rewrite Hfix.
Qed.

Lemma other_date_no_match (d d' : string) (props : gmap string property) :
  d' <> d ->
  holds (DateEquals "Date" d') props = true ->
  holds (DateEquals "Date" d) props = false.
Proof.
  unfold holds. intros Hne.
  destruct (props !! "Date") as [[t | start | v] |]; try done.
  intros Heq. apply String.eqb_eq in Heq. subst start.
  by apply String.eqb_neq.
Qed.

(** A pass for another date leaves the rows of this date as they are. *)
Lemma walking_on_other_date (database_id : string) (d : string) other rows :
  distinct_ids rows ->
  calendarDate other <> d ->
  walking_on d (final (run (W := db) (reconcile database_id other) rows)) =
  walking_on d rows.
Proof.
  intros Hids Hne. rewrite pass_on_db.
  destruct (walking_on (calendarDate other) rows) as [| row others] eqn:Hq.
  - cbn [final]. rewrite walking_on_after_create.
    apply String.eqb_neq in Hne. by rewrite Hne, app_nil_r.
  - destruct (steps_need_update row other) as [[|] | e]; cbn [final]; try done.
    apply walking_on_head_in in Hq as [Hin Hm].
    unfold walking_on. apply filter_map_fixed. intros r Hr.
    destruct (has_id (page_id row) r) eqn:Hid.
    + rewrite (distinct_ids_same rows row r Hids Hin Hr Hid).
      assert (Hno : matches (walking_on_date d) row = false).
      { rewrite (matches_date _ row Hm d).
        rewrite (matches_date _ row Hm (calendarDate other)) in Hm.
        by apply (other_date_no_match d (calendarDate other)). }
      rewrite (matches_patch_own _ other row Hm d), Hno. by split.
    + unfold patch. by rewrite Hid.
Qed.

Lemma batch_final_cons (database_id : string) steps daily_steps rows :
  final (run (W := db) (reconcile_all database_id (steps :: daily_steps)) rows) =
  match returned (run (W := db) (reconcile database_id steps) rows) with
  | Ok _ =>
      final (run (W := db) (reconcile_all database_id daily_steps)
               (final (run (W := db) (reconcile database_id steps) rows)))
  | Err _ => final (run (W := db) (reconcile database_id steps) rows)
  end.
Proof.
  rewrite reconcile_all_cons.
  destruct (returned (run (W := db) (reconcile database_id steps) rows)); [| done].
  by rewrite run_from_seen.
Qed.

Lemma pass_keeps_ids (database_id : string) steps rows :
  distinct_ids rows ->
  distinct_ids (final (run (W := db) (reconcile database_id steps) rows)).
Proof.
  intros Hids. rewrite pass_on_db.
  destruct (walking_on (calendarDate steps) rows) as [| row others].
  - cbn [final]. unfold distinct_ids. rewrite map_app.
    apply NoDup_app. split; [exact Hids |]. split; [| apply NoDup_singleton].
    intros i Hi Hfresh. apply list_elem_of_singleton in Hfresh. subst i.
    exact (infinite_is_fresh _ Hi).
  - destruct (steps_need_update row steps) as [[|] | e]; cbn [final]; try done.
    unfold distinct_ids. by rewrite ids_after_update.
Qed.

(** X6.  The loop of [main] keeps, on the model of the database, what a
    single pass keeps: distinct ids and at most one row per
    (date, "Walking"), whether it returns or stops at a record. *)
Theorem batch_keeps_invariant (database_id : string) daily_steps :
  forall rows,
    distinct_ids rows -> one_row_per_day rows ->
    distinct_ids (final (run (W := db) (reconcile_all database_id daily_steps) rows))
    /\ one_row_per_day
         (final (run (W := db) (reconcile_all database_id daily_steps) rows)).
Proof.
  induction daily_steps as [| steps rest IH]; intros rows Hids Hone; [done |].
  rewrite batch_final_cons.
  destruct (pass_keeps_invariant database_id steps rows Hids Hone) as [Hids' Hone'].
  destruct (returned (run (W := db) (reconcile database_id steps) rows)); [| done].
  by apply IH.
Qed.

(** A batch over other dates leaves a settled record settled. *)
Lemma batch_leaves_settled (database_id : string) steps daily_steps :
  forall rows,
    distinct_ids rows ->
    calendarDate steps ∉ dates daily_steps ->
    settled steps rows ->
    settled steps (final (run (W := db) (reconcile_all database_id daily_steps) rows)).
Proof.
  induction daily_steps as [| other rest IH]; intros rows Hids Hnotin Hset; [done |].
  apply not_elem_of_cons in Hnotin as [Hne Hnotin].
  assert (Hset' : settled steps
            (final (run (W := db) (reconcile database_id other) rows))).
  { destruct Hset as (row & others & Hq & Hfresh). exists row, others.
    split; [| exact Hfresh].
    by rewrite (walking_on_other_date database_id _ other rows Hids). }
  rewrite batch_final_cons.
  destruct (returned (run (W := db) (reconcile database_id other) rows));
    [| exact Hset'].
  apply IH; trivial. by apply pass_keeps_ids.
Qed.

(** A second batch over the same records neither writes nor changes
    the database. *)
Lemma second_batch_is_quiet (database_id : string) daily_steps :
  forall rows,
    distinct_ids rows ->
    NoDup (dates daily_steps) ->
    no_nan daily_steps ->
    let rows1 := final (run (W := db) (reconcile_all database_id daily_steps) rows) in
    writes (log (run (W := db) (reconcile_all database_id daily_steps) rows1)) = []
    /\ final (run (W := db) (reconcile_all database_id daily_steps) rows1) = rows1.
Proof.
  induction daily_steps as [| steps rest IH]; intros rows Hids Hdates Hnan;
    [done |].
  apply NoDup_cons in Hdates as [Hnotin Hdates].
  apply Forall_cons in Hnan as [Hnan Hnans].
  cbv zeta. rewrite batch_final_cons.
  destruct (returned (run (W := db) (reconcile database_id steps) rows))
    as [[] | e] eqn:Hret.
  - pose proof (returned_pass_settles database_id steps rows Hnan Hret) as Hset.
    pose proof (pass_keeps_ids database_id steps rows Hids) as Hids'.
    pose proof (batch_leaves_settled database_id steps rest _ Hids' Hnotin Hset)
      as Hset'.
    rewrite reconcile_all_cons, (settled_pass database_id steps _ Hset').
    cbn [returned final log]. rewrite run_from_seen. cbn [log final].
    unfold writes in *. rewrite List.filter_app. cbn [List.filter is_write app].
    by apply IH.
  - rewrite reconcile_all_cons.
    assert (Hsame : final (run (W := db) (reconcile database_id steps) rows) = rows
                    /\ writes (log (run (W := db) (reconcile database_id steps) rows)) = []).
    { revert Hret. rewrite pass_on_db.
      destruct (walking_on (calendarDate steps) rows) as [| row others];
        [discriminate |].
      by destruct (steps_need_update row steps) as [[|] | e0]. }
    destruct Hsame as [Hfinal Hw]. rewrite Hfinal, Hret. cbn [log final].
    by rewrite Hfinal.
Qed.

(** X7.  On a database with distinct ids, the loop of [main] run twice
    over the same records, with pairwise different dates and no NaN
    distance, writes nothing the second time and leaves the database as
    the first run left it, also when the first run stopped at a record. *)
Theorem second_batch_writes_nothing (database_id : string) daily_steps rows :
  distinct_ids rows ->
  NoDup (dates daily_steps) ->
  no_nan daily_steps ->
  writes (log (run (W := db) (reconcile_all database_id daily_steps)
                 (final (run (W := db) (reconcile_all database_id daily_steps)
                           rows)))) = []
  /\ final (run (W := db) (reconcile_all database_id daily_steps)
              (final (run (W := db) (reconcile_all database_id daily_steps)
                        rows))) =
     final (run (W := db) (reconcile_all database_id daily_steps) rows).
Proof.
  intros Hids Hdates Hnan.
  exact (second_batch_is_quiet database_id daily_steps rows Hids Hdates Hnan).
Qed.

(** X8.  What a pass writes is what the next query reads: after a pass
    that wrote, the first row that the query for the record's date finds
    carries Activity Type "Walking", the record's date and the record's
    steps, goal and rounded distance. *)
Theorem written_values_are_read_back (database_id : string) steps rows :
  writes (log (run (W := db) (reconcile database_id steps) rows)) <> [] ->
  exists (row : page) (others : list page),
    walking_on (calendarDate steps)
      (final (run (W := db) (reconcile database_id steps) rows)) = row :: others
    /\ properties row !! "Activity Type" = Some (Title "Walking")
    /\ properties row !! "Date" = Some (Date (calendarDate steps))
    /\ properties row !! "Total Steps" = Some (Number (get_int (totalSteps steps)))
    /\ properties row !! "Step Goal" = Some (Number (get_int (stepGoal steps)))
    /\ properties row !! "Total Distance (km)" =
         Some (Number (VFloat (distance_km (totalDistance steps)))).
Proof.
  rewrite pass_on_db.
  destruct (walking_on (calendarDate steps) rows) as [| row others] eqn:Hq.
  - intros _. cbn [final]. eexists _, _. split.
    + by rewrite walking_on_after_create, Hq, String.eqb_refl.
    + by repeat split.
  - destruct (steps_need_update row steps) as [[|] | e]; cbn [final log];
      intros Hw; try by destruct Hw.
    destruct (head_after_update (calendarDate steps) steps (page_id row)
                rows row others Hq) as (r & others' & Hq').
    { unfold has_id. apply String.eqb_refl. }
    eexists _, _. split; [exact Hq' |].
    assert (Hm : matches (walking_on_date (calendarDate steps))
                   {| page_id := page_id r;
                      properties := update_properties steps ∪ properties r |} = true).
    { assert (Hin : In {| page_id := page_id r;
                          properties := update_properties steps ∪ properties r |}
                      (walking_on (calendarDate steps)
                         (map (patch (page_id row) (update_properties steps)) rows)))
        by (rewrite Hq'; by left).
      by apply filter_In in Hin as [_ Hin]. }
    rewrite matches_updated in Hm. unfold holds in Hm. cbn [properties].
    split; [by apply lookup_union_Some_l |]. split.
    + rewrite lookup_union_r by reflexivity.
      destruct (properties r !! "Date") as [[t | start | v] |]; try done.
      apply String.eqb_eq in Hm. by subst start.
    + by repeat split; apply lookup_union_Some_l.
Qed.

End Batches.

(** ** The distance and the two write paths *)
Section Distance.

Import PyFloat.

Lemma binary_round_aux_sign (s : bool) (m e : Z) (l : location) :
  0 <= m -> signbit (binary_round_aux prec emax s m e l) = s.
Proof.
  intros Hm. unfold binary_round_aux.
  pose proof (shr_fexp_nonneg m e l Hm) as H1.
  destruct (shr_fexp prec emax m e l) as [mrs' e'] eqn:E1; simpl in H1.
  pose proof (shr_fexp_nonneg _ e' loc_Exact
                (round_nearest_even_nonneg _ (loc_of_shr_record mrs') H1)) as H2.
  destruct (shr_fexp prec emax (round_nearest_even _ _) e' loc_Exact)
    as [mrs'' e''] eqn:E2; simpl in H2.
  destruct (shr_m mrs'') as [|p|p]; [reflexivity | | lia].
  destruct (e'' <=? emax - prec); reflexivity.
Qed.

Lemma div_finite_sign (sx sy : bool) (mx my : positive) (ex ey : Z) :
  signbit (div (S754_finite sx mx ex) (S754_finite sy my ey)) = xorb sx sy.
Proof.
  unfold div, SFdiv, SFdiv_core_binary.
  set (m' := match _ - _ - _ with Z.pos _ => _ | Z0 => _ | Z.neg _ => _ end).
  assert (Hm' : 0 <= m').
  { subst m'. destruct (_ - _ - _); try lia. apply Z.shiftl_nonneg. lia. }
  pose proof (Z.div_pos m' (Z.pos my) Hm' ltac:(lia)) as Hq.
  unfold Z.div in Hq.
  destruct (Z.div_eucl m' (Z.pos my)) as [q r]; simpl in Hq.
  apply binary_round_aux_sign, Hq.
Qed.

(** X9.  The conversion round(d / 1000, 2) never clamps: its result has
    the sign of the distance d, so a negative distance is stored as a
    negative number or as -0.0, and it is NaN exactly when d is. *)
Theorem distance_keeps_sign_and_nan (x : float) :
  signbit (distance_km (Some x)) = signbit x
  /\ is_nan (distance_km (Some x)) = is_nan x.
Proof.
  unfold distance_km.
  change (of_Z 1000) with (S754_finite false 8796093022208000 (-43)).
  assert (Hdiv : signbit (div x (S754_finite false 8796093022208000 (-43))) = signbit x
                 /\ is_nan (div x (S754_finite false 8796093022208000 (-43))) = is_nan x).
  { destruct x as [[] | [] | | s m e]; try (split; reflexivity).
    split; [by rewrite div_finite_sign, xorb_false_r | apply div_finite_not_nan]. }
  destruct Hdiv as [<- <-].
  generalize (div x (S754_finite false 8796093022208000 (-43))). intros y.
  destruct y as [s | s | | s m e]; try (split; reflexivity).
  unfold round2. change (of_Z 100) with (S754_finite false 7036874417766400 (-46)).
  destruct (match e with Z.neg p => _ | _ => _ end); try (split; reflexivity).
  split; [by rewrite div_finite_sign, xorb_false_r | apply div_finite_not_nan].
Qed.

End Distance.

Section Paths.

Implicit Types (steps : DailyStepRecord) (row : page).

(** X10.  The create and the update write the same values: the
    properties of a create are those of an update for the same record
    with the Date added, which the update does not name. *)
Theorem create_is_update_with_date steps :
  create_properties steps =
    <["Date" := Date (calendarDate steps)]> (update_properties steps)
  /\ update_properties steps !! "Date" = None
  /\ dom (create_properties steps) = tracked ∪ {[ "Date" ]}.
Proof.
  split; [| by split].
  apply map_eq. intros k. unfold create_properties, update_properties.
  destruct (decide (k = "Date")) as [-> | Hk]; [reflexivity |].
  rewrite (lookup_insert_ne _ "Date" k) by done.
  destruct (decide (k = "Activity Type")) as [-> | Hk1]; [reflexivity |].
  rewrite !(lookup_insert_ne _ "Activity Type" k) by done.
  by rewrite (lookup_insert_ne _ "Date" k) by done.
Qed.

(** X11.  A row whose Total Distance (km) is empty is always stale: the
    distance of the record is a float, 0.0 when it is missing, and
    differs from None, whereas an empty Step Goal equals a missing
    stepGoal. *)
Theorem empty_stored_distance_is_always_stale steps row (a b : value) :
  properties row !! "Total Steps" = Some (Number a) ->
  properties row !! "Step Goal" = Some (Number b) ->
  properties row !! "Total Distance (km)" = Some (Number VNone) ->
  steps_need_update row steps = Ok true
  /\ py_ne VNone (get_int None) = false.
Proof.
  intros Ha Hb Hc.
  rewrite (steps_need_update_numbers row steps a b VNone Ha Hb Hc).
  by rewrite !orb_true_r.
Qed.

End Paths.

(** ** The login, the fetch and [main] in any world *)
Section Whole.

Context {W : world}.
Variable home : string.
Implicit Types (s : state W) (g : garmin) (email password : string).

Lemma restore_counts s :
  let l := log (run (login_with_tokens home) s) in
  prompts l = [] /\ dumps l = [] /\ fetches l = []
  /\ List.filter is_notion l = [] /\ List.filter is_clock l = [].
Proof.
  unfold run, login_with_tokens, perform, print; simpl.
  answered; [| done]. by answered.
Qed.

Lemma password_counts email password s :
  let l := log (run (login_with_password home email password) s) in
  (length (prompts l) <= 1)%nat /\ (length (dumps l) <= 1)%nat
  /\ fetches l = [] /\ List.filter is_notion l = []
  /\ List.filter is_clock l = [].
Proof.
  unfold run, login_with_password, perform, print; simpl.
  answered; [| by repeat split; simpl; lia].
  answered; [| by repeat split; simpl; lia].
  destruct r0 as [result1 result2]; simpl.
  destruct (eq_str result1 "needs_mfa"); simpl.
  - answered; [| by repeat split; simpl; lia].
    answered; [| by repeat split; simpl; lia].
    answered; by repeat split; simpl; lia.
  - answered; by repeat split; simpl; lia.
Qed.

(** The log of a login is that of the restore, alone or followed by
    that of the login by password. *)
Lemma login_log_cases email password s :
  log (run (login_garmin_with_mfa home email password) s) =
    log (run (login_with_tokens home) s)
  \/ log (run (login_garmin_with_mfa home email password) s) =
       log (run (login_with_tokens home) s) ++
       log (run (login_with_password home email password)
              (final (run (login_with_tokens home) s))).
Proof.
  rewrite login_unfold. cbv zeta.
  destruct (returned (run (login_with_tokens home) s)) as [[g |] | e].
  - by left.
  - right. by rewrite run_from_seen.
  - destruct (is_Exception e); [right; by rewrite run_from_seen | by left].
Qed.

(** A login stays on the Garmin side and off the clock. *)
Lemma login_counts email password s :
  let l := log (run (login_garmin_with_mfa home email password) s) in
  fetches l = []
  /\ List.filter is_notion l = []
  /\ List.filter is_clock l = [].
Proof.
  cbv zeta.
  destruct (restore_counts s) as (_ & _ & Hf & Hn & Hc).
  destruct (password_counts email password
              (final (run (login_with_tokens home) s)))
    as (_ & _ & Hf' & Hn' & Hc').
  unfold fetches in *.
  destruct (login_log_cases email password s) as [-> | ->];
    rewrite ?List.filter_app, ?Hf, ?Hn, ?Hc, ?Hf', ?Hn', ?Hc'; by repeat split.
Qed.

(** X12.  In every world and whatever the collaborators answer, a login
    prompts at most once and dumps tokens at most once, and it neither
    reads the clock, nor fetches steps, nor calls Notion. *)
Theorem login_prompts_and_dumps_at_most_once email password s :
  let l := log (run (login_garmin_with_mfa home email password) s) in
  (length (prompts l) <= 1)%nat
  /\ (length (dumps l) <= 1)%nat
  /\ fetches l = []
  /\ List.filter is_notion l = []
  /\ List.filter is_clock l = [].
Proof.
  cbv zeta.
  split; [| split; [| exact (login_counts email password s)]].
  - destruct (restore_counts s) as (Hp & _).
    destruct (password_counts email password
                (final (run (login_with_tokens home) s))) as (Hp' & _).
    unfold prompts in *.
    destruct (login_log_cases email password s) as [-> | ->].
    + rewrite Hp. simpl. lia.
    + rewrite List.filter_app, length_app, Hp. simpl. lia.
  - destruct (restore_counts s) as (_ & Hd & _).
    destruct (password_counts email password
                (final (run (login_with_tokens home) s))) as (_ & Hd' & _).
    unfold dumps in *.
    destruct (login_log_cases email password s) as [-> | ->].
    + rewrite Hd. simpl. lia.
    + rewrite List.filter_app, length_app, Hd. simpl. lia.
Qed.

(** X13.  An exception of the restore that does not derive from
    [Exception] is not caught: the login ends with it where the restore
    stopped, and the login by password is not tried. *)
Theorem interrupted_restore_ends_login email password s (e : exn) :
  returned (run (login_with_tokens home) s) = Err e ->
  is_Exception e = false ->
  run (login_garmin_with_mfa home email password) s =
    Build_outcome W garmin (Err e)
      (final (run (login_with_tokens home) s))
      (log (run (login_with_tokens home) s))
  /\ last (log (run (login_garmin_with_mfa home email password) s)) =
       Some (Failed e).
Proof.
  intros Hrestore Hexn.
  assert (Hrun : run (login_garmin_with_mfa home email password) s =
                 Build_outcome W garmin (Err e)
                   (final (run (login_with_tokens home) s))
                   (log (run (login_with_tokens home) s))).
  { rewrite login_unfold. cbv zeta. by rewrite Hrestore, Hexn. }
  split; [exact Hrun |]. rewrite Hrun. cbn [log].
  pose proof (login_with_tokens_log home s) as Hlog. by rewrite Hrestore in Hlog.
Qed.

(** The fetch loop asks for the days of its range in order and stops
    at the first fetch that raises. *)
Lemma fetch_days_prefix g (days : list Date.date) :
  forall s (daily_steps : list DailyStepRecord),
    let o := run (fetch_days g days daily_steps) s in
    fetches (log o) `prefix_of` map (fetch_of g) days
    /\ List.filter is_notion (log o) = []
    /\ match returned o with
       | Ok _ => fetches (log o) = map (fetch_of g) days
       | Err e => last (log o) = Some (Failed e)
       end.
Proof.
  induction days as [| d rest IH]; intros s daily_steps o; subst o.
  - by split; [exists [] | split].
  - unfold run. cbn [fetch_days]. unfold mbind, prog_bind, perform. simpl.
    destruct (respond W _ s) as [[fetched | e] s'] eqn:Hr; simpl.
    + rewrite run_from_seen. cbn [log returned].
      specialize (IH s' (daily_steps ++ fetched)). cbv zeta in IH.
      destruct IH as (Hpre & Hw & Hret).
      unfold fetches in *. rewrite !List.filter_app, Hw.
      split; [| split; [done |]].
      * cbn [List.filter is_fetch app]. by apply prefix_cons.
      * destruct (returned (run (fetch_days g rest (daily_steps ++ fetched)) s')).
        -- cbn [List.filter is_fetch app]. by rewrite Hret.
        -- by rewrite last_app, Hret.
    + split; [| done]. apply prefix_cons, prefix_nil.
Qed.

(** X14.  Once the clock has been read twice, the fetch asks for the
    days of the window in order and stops at the first day whose fetch
    raises, with that exception and without the records fetched so far.
    When the second reading lies before the first, the window is empty:
    nothing is fetched and the empty list is returned. *)
Theorem fetch_stops_at_first_failure g s s1 s2 (today today' : Date.date) :
  respond W DateToday s = (Ok today, s1) ->
  respond W DateToday s1 = (Ok today', s2) ->
  let o := run (get_all_daily_steps g) s in
  fetches (log o) `prefix_of`
    map (fetch_of g) (daterange (Date.sub_days today 1) today')
  /\ match returned o with
     | Ok _ =>
         fetches (log o) =
           map (fetch_of g) (daterange (Date.sub_days today 1) today')
     | Err e => last (log o) = Some (Failed e)
     end
  /\ (if decide (today' < today)
      then o = Build_outcome W (list DailyStepRecord) (Ok []) s2
                 [Called DateToday; Called DateToday]
      else True).
Proof.
  intros Hfirst Hsecond o.
  assert (Hrun : o = run_from (fetch_days g (daterange (Date.sub_days today 1) today') [])
                          s2 [Called DateToday; Called DateToday]).
  { subst o. unfold run, get_all_daily_steps, perform; simpl.
    rewrite Hfirst; simpl. by rewrite Hsecond. }
  rewrite Hrun, run_from_seen. cbn [log returned].
  destruct (fetch_days_prefix g (daterange (Date.sub_days today 1) today') s2 [])
    as (Hpre & _ & Hret).
  split; [exact Hpre |]. split.
  - destruct (returned (run (fetch_days g _ []) s2)); [exact Hret |].
    by rewrite last_app, Hret.
  - destruct (decide (today' < today)) as [Hback |]; [| done].
    assert (Hempty : daterange (Date.sub_days today 1) today' = []).
    { unfold daterange, range, Date.sub_days, Date.days_between.
      rewrite seqZ_nil by lia. reflexivity. }
    by rewrite Hempty.
Qed.

Lemma get_all_no_notion g s :
  List.filter is_notion (log (run (get_all_daily_steps g) s)) = [].
Proof.
  unfold run, get_all_daily_steps, perform; simpl.
  answered; [| done]. answered; [| done].
  rewrite run_from_seen. cbn [log]. rewrite List.filter_app.
  by destruct (fetch_days_prefix g (daterange (Date.sub_days r 1) r0) s1 [])
    as (_ & -> & _).
Qed.

(** [main], step by step. *)
Lemma main_unfold (garmin_email garmin_password notion_token database_id : string) s :
  run (main home garmin_email garmin_password notion_token database_id) s =
  match returned (run (login_garmin_with_mfa home garmin_email garmin_password) s) with
  | Err e =>
      Build_outcome W unit (Err e)
        (final (run (login_garmin_with_mfa home garmin_email garmin_password) s))
        (log (run (login_garmin_with_mfa home garmin_email garmin_password) s))
  | Ok g =>
      match returned (run (get_all_daily_steps g)
               (final (run (login_garmin_with_mfa home garmin_email garmin_password) s))) with
      | Err e =>
          Build_outcome W unit (Err e)
            (final (run (get_all_daily_steps g)
               (final (run (login_garmin_with_mfa home garmin_email garmin_password) s))))
            (log (run (login_garmin_with_mfa home garmin_email garmin_password) s) ++
             log (run (get_all_daily_steps g)
               (final (run (login_garmin_with_mfa home garmin_email garmin_password) s))))
      | Ok daily_steps =>
          run_from (reconcile_all database_id daily_steps)
            (final (run (get_all_daily_steps g)
               (final (run (login_garmin_with_mfa home garmin_email garmin_password) s))))
            (log (run (login_garmin_with_mfa home garmin_email garmin_password) s) ++
             log (run (get_all_daily_steps g)
               (final (run (login_garmin_with_mfa home garmin_email garmin_password) s))))
      end
  end.
Proof.
  change (run (main home garmin_email garmin_password notion_token database_id) s)
    with (run_from
            (bind (login_garmin_with_mfa home garmin_email garmin_password)
               (fun g => bind (get_all_daily_steps g)
                           (fun daily_steps => reconcile_all database_id daily_steps)))
            s []).
  rewrite run_from_bind.
  fold (run (login_garmin_with_mfa home garmin_email garmin_password) s).
  destruct (returned (run (login_garmin_with_mfa home garmin_email garmin_password) s))
    as [g | e]; [| done].
  rewrite run_from_bind, (run_from_seen (get_all_daily_steps g)).
  cbn [returned final log].
  by destruct (returned (run (get_all_daily_steps g) _)).
Qed.

(** X15.  [main] calls Notion only after the login and the fetch have
    both returned: when the login raises, [main] ends with that
    exception and the log of the login; when the fetch raises, with that
    exception and the logs of the two; in both cases without a call to
    Notion.  Otherwise it goes on with the loop over the fetched records
    from the state that the fetch left. *)
Theorem main_reaches_notion_after_login_and_fetch
    (garmin_email garmin_password notion_token database_id : string) s :
  let whole := run (main home garmin_email garmin_password notion_token database_id) s in
  let o1 := run (login_garmin_with_mfa home garmin_email garmin_password) s in
  match returned o1 with
  | Err e =>
      whole = Build_outcome W unit (Err e) (final o1) (log o1)
      /\ List.filter is_notion (log whole) = []
  | Ok g =>
      let o2 := run (get_all_daily_steps g) (final o1) in
      match returned o2 with
      | Err e =>
          whole = Build_outcome W unit (Err e) (final o2) (log o1 ++ log o2)
          /\ List.filter is_notion (log whole) = []
      | Ok daily_steps =>
          whole = run_from (reconcile_all database_id daily_steps)
                    (final o2) (log o1 ++ log o2)
          /\ List.filter is_notion (log o1 ++ log o2) = []
      end
  end.
Proof.
  cbv zeta. rewrite main_unfold.
  destruct (login_counts garmin_email garmin_password s) as (_ & Hn1 & _).
  destruct (returned (run (login_garmin_with_mfa home garmin_email garmin_password) s))
    as [g | e]; [| done].
  pose proof (get_all_no_notion g
    (final (run (login_garmin_with_mfa home garmin_email garmin_password) s))) as Hn2.
  destruct (returned (run (get_all_daily_steps g) _)) as [daily_steps | e];
    cbn [log]; by rewrite List.filter_app, Hn1, Hn2.
Qed.

End Whole.

Lemma no_notion_no_writes (l : list event) :
  List.filter is_notion l = [] -> writes l = [].
Proof.
  unfold writes. induction l as [| e l IH]; [done |]. cbn [List.filter].
  destruct e as [msg | [] | e]; cbn [is_notion is_notion_call is_write]; try done.
Qed.

(** ** The fetch on the model of the Garmin side *)
Section History.
Import Garmin.
Variable svc : service.

Lemma fetch_days_history (g : garmin) (tokens : nat) (cr : option (string * string))
    (days : list Date.date) :
  forall (d : desk) (daily_steps : list DailyStepRecord),
    clients d !! g = Some {| credentials := cr; held := Some tokens |} ->
    run (W := at_desk svc) (fetch_days g days daily_steps) d =
    Build_outcome (at_desk svc) (list DailyStepRecord)
      (Ok (daily_steps ++
           concat (map (fun day => history svc (Date.isoformat day)) days)))
      d (map (fetch_of g) days).
Proof.
  induction days as [| day rest IH]; intros d daily_steps Hg.
  - unfold run; simpl. by rewrite app_nil_r.
  - unfold run. cbn [fetch_days]. unfold mbind, prog_bind, perform.
    cbn [bind run_from respond at_desk attend]. rewrite Hg.
    cbn [bind reported app]. rewrite run_from_seen, (IH d _ Hg).
    cbn [returned final log map concat]. by rewrite <- app_assoc.
Qed.

(** X16.  On the model of the Garmin side, with a client that holds
    tokens, the fetch returns the records of the days of the window one
    day after the other, from the day before the first reading of the
    clock to the day before the second, asks for each day once and leaves
    the credential store alone. *)
Theorem fetched_records_come_in_day_order (g : garmin) (tokens : nat)
    (cr : option (string * string)) (d : desk)
    (today today' : Date.date) (later : list Date.date) :
  clients d !! g = Some {| credentials := cr; held := Some tokens |} ->
  clock d = today :: today' :: later ->
  returned (run (W := at_desk svc) (get_all_daily_steps g) d) =
    Ok (concat (map (fun day => history svc (Date.isoformat day))
                  (seqZ (today - 1) (today' - today + 1))))
  /\ fetches (log (run (W := at_desk svc) (get_all_daily_steps g) d)) =
       map (fetch_of g) (seqZ (today - 1) (today' - today + 1))
  /\ files (final (run (W := at_desk svc) (get_all_daily_steps g) d)) = files d.
Proof.
  intros Hg Hclock.
  assert (Hrange : daterange (Date.sub_days today 1) today' =
                   seqZ (today - 1) (today' - today + 1)).
  { unfold daterange, range, Date.sub_days, Date.add_days, Date.days_between.
    change (map (fun x => today - 1 + x)) with (fmap (M := list) (Z.add (today - 1))).
    rewrite fmap_add_seqZ. f_equal; lia. }
  unfold run, get_all_daily_steps, perform, mbind, prog_bind.
  cbn [bind run_from respond at_desk attend]. rewrite Hclock.
  cbn [bind run_from respond at_desk attend clock reported app].
  rewrite run_from_seen, Hrange.
  rewrite (fetch_days_history g tokens cr); [| exact Hg].
  cbn [returned final log files]. split; [done |]. split; [| done].
  unfold fetches. rewrite List.filter_app. cbn [List.filter is_fetch app].
  clear. induction (seqZ _ _) as [| x l IH]; [done |]. cbn [map List.filter fetch_of is_fetch].
  by rewrite IH.
Qed.
End History.

(** ** Whole runs on the two models side by side *)
Section Simulation.
Variable svc : Garmin.service.

Lemma calls_only_bind (P : call -> bool) {A B : Type} (p : prog A) (f : A -> prog B) :
  calls_only P p -> (forall a, calls_only P (f a)) -> calls_only P (bind p f).
Proof.
  intros Hp Hf. induction p as [a | e | msg next IH | c k IH]; simpl in *; trivial.
  - by apply IH.
  - destruct Hp as [Hc Hk]. split; [exact Hc |]. intros r. by apply IH.
Qed.

Lemma calls_only_try (P : call -> bool) {A : Type} (p h : prog A) :
  calls_only P p -> calls_only P h -> calls_only P (try_except p h).
Proof.
  intros Hp Hh. induction p as [a | e | msg next IH | c k IH]; simpl in *; trivial.
  - by destruct (is_Exception e).
  - by apply IH.
  - destruct Hp as [Hc Hk]. split; [exact Hc |]. intros r. by apply IH.
Qed.

Lemma calls_only_perform (P : call -> bool) (c : call) :
  P c = true -> calls_only P (perform c).
Proof. intros Hc. split; [exact Hc |]. by intros [v | e]. Qed.

Lemma run_notion_only {A : Type} (p : prog A) :
  calls_only is_notion_call p ->
  forall (d : Garmin.desk) (rows : list page) (seen : list event),
    run_from (W := Both.at_home svc) p (d, rows) seen =
    Build_outcome (Both.at_home svc) A
      (returned (run_from (W := Notion.db) p rows seen))
      (d, final (run_from (W := Notion.db) p rows seen))
      (log (run_from (W := Notion.db) p rows seen)).
Proof.
  induction p as [a | e | msg next IH | c k IH]; intros Hp d rows seen;
    simpl in *; trivial.
  - by apply IH.
  - destruct Hp as [Hc Hk]. unfold Both.attend. rewrite Hc. cbn [fst snd].
    destruct (Notion.serve c rows) as [r rows']. by apply IH.
Qed.

Lemma run_garmin_only {A : Type} (p : prog A) :
  calls_only (fun c => negb (is_notion_call c)) p ->
  forall (d : Garmin.desk) (rows : list page) (seen : list event),
    run_from (W := Both.at_home svc) p (d, rows) seen =
    Build_outcome (Both.at_home svc) A
      (returned (run_from (W := Garmin.at_desk svc) p d seen))
      (final (run_from (W := Garmin.at_desk svc) p d seen), rows)
      (log (run_from (W := Garmin.at_desk svc) p d seen)).
Proof.
  induction p as [a | e | msg next IH | c k IH]; intros Hp d rows seen;
    simpl in *; trivial.
  - by apply IH.
  - destruct Hp as [Hc Hk]. unfold Both.attend.
    apply negb_true_iff in Hc. rewrite Hc. cbn [fst snd].
    destruct (Garmin.attend svc c d) as [r d']. by apply IH.
Qed.

Lemma login_is_garmin_only (home email password : string) :
  calls_only (fun c => negb (is_notion_call c))
    (login_garmin_with_mfa home email password).
Proof.
  unfold login_garmin_with_mfa, mbind, prog_bind.
  apply calls_only_bind.
  - apply calls_only_try; [| done].
    unfold login_with_tokens, mbind, prog_bind.
    apply calls_only_bind; [by apply calls_only_perform |]. intros g.
    apply calls_only_bind; [by apply calls_only_perform |]. by intros _.
  - intros [g |]; [done |].
    unfold login_with_password, mbind, prog_bind. simpl.
    split; [done |]. intros [g | e]; simpl; [| done].
    split; [done |]. intros [[result1 result2] | e]; simpl; [| done].
    destruct (eq_str result1 "needs_mfa"); simpl.
    + split; [done |]. intros [code | e]; simpl; [| done].
      split; [done |]. intros [[] | e]; simpl; [| done].
      split; [done |]. by intros [[] | e].
    + split; [done |]. by intros [[] | e].
Qed.

Lemma fetch_days_is_garmin_only (g : garmin) (days : list Date.date) :
  forall daily_steps,
    calls_only (fun c => negb (is_notion_call c)) (fetch_days g days daily_steps).
Proof.
  induction days as [| day rest IH]; intros daily_steps; [done |].
  cbn [fetch_days]. unfold mbind, prog_bind.
  apply calls_only_bind; [by apply calls_only_perform |]. intros fetched. apply IH.
Qed.

Lemma get_all_is_garmin_only (g : garmin) :
  calls_only (fun c => negb (is_notion_call c)) (get_all_daily_steps g).
Proof.
  unfold get_all_daily_steps, mbind, prog_bind.
  apply calls_only_bind; [by apply calls_only_perform |]. intros today.
  apply calls_only_bind; [by apply calls_only_perform |]. intros today'.
  apply fetch_days_is_garmin_only.
Qed.

Lemma reconcile_is_notion_only (database_id : string) (steps : DailyStepRecord) :
  calls_only is_notion_call (reconcile database_id steps).
Proof.
  unfold reconcile, daily_steps_exist, mbind, prog_bind.
  apply calls_only_bind.
  - apply calls_only_bind; [by apply calls_only_perform | done].
  - intros [row |]; [| by apply calls_only_perform].
    apply calls_only_bind; [by destruct (steps_need_update row steps) |].
    intros [|]; [by apply calls_only_perform | done].
Qed.

Lemma reconcile_all_is_notion_only (database_id : string)
    (daily_steps : list DailyStepRecord) :
  calls_only is_notion_call (reconcile_all database_id daily_steps).
Proof.
  induction daily_steps as [| steps rest IH]; [done |].
  cbn [reconcile_all]. unfold mbind, prog_bind.
  apply calls_only_bind; [apply reconcile_is_notion_only | by intros _].
Qed.
End Simulation.

Section EndToEnd.
Import Garmin.
Variable svc : service.
Variable home : string.

Lemma attend_keeps_clock (c : call) (d : desk) :
  is_clock (Called c) = false ->
  clock (snd (Garmin.attend svc c d)) = clock d.
Proof.
  intros Hc.
  destruct c as [prompt | | em pw mfa | g [path |] | g [| | st] code | g path
                 | g day day' | | |];
    try discriminate Hc; simpl; trivial.
  - by destruct (keyboard d).
  - destruct (files d !! path) as [tokens |]; [| done].
    by destruct (accepts svc tokens).
  - destruct (clients d !! g) as [[[[e p] |] h] |]; try done.
    by destruct (answers svc e p).
  - by destruct (redeems svc st code).
  - by destruct (clients d !! g) as [[cr [t |]] |].
  - by destruct (clients d !! g) as [[cr [t |]] |].
Qed.

Lemma clock_changes_by_reading_only {A : Type} (p : prog A) :
  forall d : desk,
    List.filter is_clock (log (run (W := at_desk svc) p d)) = [] ->
    clock (final (run (W := at_desk svc) p d)) = clock d.
Proof.
  unfold run.
  induction p as [a | e | msg next IH | c k IH]; intros d Hd; simpl in *; trivial.
  - rewrite run_from_seen in Hd |- *. unfold run in *. simpl in *. by apply IH.
  - pose proof (attend_keeps_clock c d) as Hc.
    destruct (Garmin.attend svc c d) as [r d'].
    rewrite run_from_seen in Hd |- *. unfold run in *. cbn [log final] in *.
    rewrite List.filter_app in Hd.
    apply app_eq_nil in Hd as [Hd1 Hd2].
    rewrite (IH r d' Hd2). apply Hc.
    cbn [List.filter app] in Hd1. by destruct (is_clock (Called c)).
Qed.

Lemma login_reads_no_clock {W : world} (email password : string) (s : state W) :
  List.filter is_clock (log (run (login_garmin_with_mfa home email password) s)) = [].
Proof.
  rewrite login_unfold. cbv zeta.
  assert (Hrestore : List.filter is_clock (log (run (login_with_tokens home) s)) = []).
  { unfold run, login_with_tokens, perform, print; simpl.
    answered; [| done]. by answered. }
  assert (Hfallback : forall s' : state W,
            List.filter is_clock
              (log (run (login_with_password home email password) s')) = []).
  { intros s'. unfold run, login_with_password, perform, print; simpl.
    answered; [| done]. answered; [| done].
    destruct r0 as [result1 result2]; simpl.
    destruct (eq_str result1 "needs_mfa"); simpl.
    - answered; [| done]. answered; [| done]. by answered.
    - by answered. }
  destruct (returned (run (login_with_tokens home) s)) as [[g |] | e];
    cbn [log]; trivial.
  - rewrite run_from_seen. cbn [log].
    by rewrite List.filter_app, Hrestore, Hfallback.
  - destruct (is_Exception e); cbn [log]; trivial.
    rewrite run_from_seen. cbn [log].
    by rewrite List.filter_app, Hrestore, Hfallback.
Qed.

Lemma fetch_days_returned (g : garmin) (days : list Date.date) :
  forall (d : desk) (daily_steps fetched : list DailyStepRecord),
    returned (run (W := at_desk svc) (fetch_days g days daily_steps) d) = Ok fetched ->
    fetched = daily_steps ++
              concat (map (fun day => history svc (Date.isoformat day)) days)
    /\ final (run (W := at_desk svc) (fetch_days g days daily_steps) d) = d.
Proof.
  induction days as [| day rest IH]; intros d daily_steps fetched.
  - unfold run; simpl. intros [= <-]. by rewrite app_nil_r.
  - unfold run. cbn [fetch_days]. unfold mbind, prog_bind, perform.
    cbn [bind run_from respond at_desk Garmin.attend].
    destruct (clients d !! g) as [[cr [tokens |]] |]; cbn [bind reported app];
      rewrite ?run_from_seen; cbn [returned final]; try discriminate.
    intros Hret. destruct (IH d _ _ Hret) as [-> Hfinal].
    split; [| exact Hfinal]. cbn [map concat]. by rewrite <- app_assoc.
Qed.

Lemma same_day_fetch (g : garmin) (d : desk) (today : Date.date)
    (later : list Date.date) (fetched : list DailyStepRecord) :
  clock d = today :: today :: later ->
  returned (run (W := at_desk svc) (get_all_daily_steps g) d) = Ok fetched ->
  fetched = history svc (Date.isoformat (today - 1))
  /\ clock (final (run (W := at_desk svc) (get_all_daily_steps g) d)) = later.
Proof.
  intros Hclock.
  unfold run, get_all_daily_steps, perform, mbind, prog_bind.
  cbn [bind run_from respond at_desk Garmin.attend]. rewrite Hclock.
  cbn [bind run_from respond at_desk Garmin.attend clock reported app].
  rewrite run_from_seen, daterange_one_day. cbn [returned final].
  intros Hret. apply fetch_days_returned in Hret as [-> ->].
  cbn [map concat app clock]. by rewrite app_nil_r.
Qed.
End EndToEnd.

Section TwoRuns.
Import Garmin.
Variable svc : service.
Variable home : string.

Lemma garmin_part {A : Type} (p : prog A) (d : desk) (rows : list page) :
  calls_only (fun c => negb (is_notion_call c)) p ->
  run (W := Both.at_home svc) p (d, rows) =
  Build_outcome (Both.at_home svc) A
    (returned (run (W := at_desk svc) p d))
    (final (run (W := at_desk svc) p d), rows)
    (log (run (W := at_desk svc) p d)).
Proof. intros Hp. by apply run_garmin_only. Qed.

Lemma notion_part {A : Type} (p : prog A) (d : desk) (rows : list page) :
  calls_only is_notion_call p ->
  run (W := Both.at_home svc) p (d, rows) =
  Build_outcome (Both.at_home svc) A
    (returned (run (W := Notion.db) p rows))
    (d, final (run (W := Notion.db) p rows))
    (log (run (W := Notion.db) p rows)).
Proof. intros Hp. by apply run_notion_only. Qed.

(** [main] on the two models side by side: the login and the fetch act
    on the Garmin side, the reconciliation on the database. *)
Lemma main_at_home (garmin_email garmin_password notion_token database_id : string)
    (d : desk) (rows : list page) :
  run (W := Both.at_home svc)
    (main home garmin_email garmin_password notion_token database_id) (d, rows) =
  match returned (run (W := at_desk svc)
                    (login_garmin_with_mfa home garmin_email garmin_password) d) with
  | Err e =>
      Build_outcome (Both.at_home svc) unit (Err e)
        (final (run (W := at_desk svc)
                  (login_garmin_with_mfa home garmin_email garmin_password) d), rows)
        (log (run (W := at_desk svc)
                (login_garmin_with_mfa home garmin_email garmin_password) d))
  | Ok g =>
      match returned (run (W := at_desk svc) (get_all_daily_steps g)
               (final (run (W := at_desk svc)
                  (login_garmin_with_mfa home garmin_email garmin_password) d))) with
      | Err e =>
          Build_outcome (Both.at_home svc) unit (Err e)
            (final (run (W := at_desk svc) (get_all_daily_steps g)
               (final (run (W := at_desk svc)
                  (login_garmin_with_mfa home garmin_email garmin_password) d))), rows)
            (log (run (W := at_desk svc)
                    (login_garmin_with_mfa home garmin_email garmin_password) d) ++
             log (run (W := at_desk svc) (get_all_daily_steps g)
               (final (run (W := at_desk svc)
                  (login_garmin_with_mfa home garmin_email garmin_password) d))))
      | Ok daily_steps =>
          Build_outcome (Both.at_home svc) unit
            (returned (run (W := Notion.db)
                         (reconcile_all database_id daily_steps) rows))
            (final (run (W := at_desk svc) (get_all_daily_steps g)
               (final (run (W := at_desk svc)
                  (login_garmin_with_mfa home garmin_email garmin_password) d))),
             final (run (W := Notion.db)
                      (reconcile_all database_id daily_steps) rows))
            ((log (run (W := at_desk svc)
                    (login_garmin_with_mfa home garmin_email garmin_password) d) ++
              log (run (W := at_desk svc) (get_all_daily_steps g)
               (final (run (W := at_desk svc)
                  (login_garmin_with_mfa home garmin_email garmin_password) d)))) ++
             log (run (W := Notion.db)
                    (reconcile_all database_id daily_steps) rows))
      end
  end.
Proof.
  rewrite main_unfold.
  rewrite (garmin_part _ d rows
             (login_is_garmin_only home garmin_email garmin_password)).
  cbn [returned final log].
  destruct (returned (run (W := at_desk svc)
              (login_garmin_with_mfa home garmin_email garmin_password) d))
    as [g | e]; [| done].
  rewrite (garmin_part _ _ rows (get_all_is_garmin_only g)).
  cbn [returned final log].
  destruct (returned (run (W := at_desk svc) (get_all_daily_steps g) _))
    as [daily_steps | e]; [| done].
  rewrite run_from_seen.
  by rewrite (notion_part _ _ rows
                (reconcile_all_is_notion_only database_id daily_steps)).
Qed.

(** X17.  On the two models side by side: when a run of [main] has
    returned and [main] runs again on the same day, against the state
    that the first run left, the second run writes nothing to the
    database, provided the day's records have pairwise different dates
    and no NaN distance and the database had distinct ids. *)
Theorem second_run_of_the_day_writes_nothing
    (garmin_email garmin_password notion_token database_id : string)
    (d : desk) (rows : list page) (today : Date.date) (later : list Date.date) :
  Notion.distinct_ids rows ->
  clock d = today :: today :: today :: today :: later ->
  NoDup (dates (history svc (Date.isoformat (today - 1)))) ->
  no_nan (history svc (Date.isoformat (today - 1))) ->
  returned (run (W := Both.at_home svc)
              (main home garmin_email garmin_password notion_token database_id)
              (d, rows)) = Ok tt ->
  writes (log (run (W := Both.at_home svc)
                 (main home garmin_email garmin_password notion_token database_id)
                 (final (run (W := Both.at_home svc)
                    (main home garmin_email garmin_password notion_token database_id)
                    (d, rows))))) = [].
Proof.
  intros Hids Hclock Hdates Hnan.
  set (login := login_garmin_with_mfa home garmin_email garmin_password).
  rewrite (main_at_home _ _ _ _ d rows). fold login.
  pose proof (clock_changes_by_reading_only svc login d
                (login_reads_no_clock (W := at_desk svc) home garmin_email garmin_password d))
    as Hclock1.
  rewrite Hclock in Hclock1.
  set (d1 := final (run (W := at_desk svc) login d)) in *.
  destruct (returned (run (W := at_desk svc) login d)) as [g | e]; [| discriminate].
  destruct (returned (run (W := at_desk svc) (get_all_daily_steps g) d1))
    as [fetched | e] eqn:Hfetch; [| discriminate].
  destruct (same_day_fetch svc g d1 today _ fetched Hclock1 Hfetch) as [-> Hclock2].
  set (d2 := final (run (W := at_desk svc) (get_all_daily_steps g) d1)) in *.
  set (daily_steps := history svc (Date.isoformat (today - 1))) in *.
  cbn [returned final]. intros _.
  set (rows1 := final (run (W := Notion.db) (reconcile_all database_id daily_steps) rows)).
  rewrite (main_at_home _ _ _ _ d2 rows1). fold login.
  pose proof (clock_changes_by_reading_only svc login d2
                (login_reads_no_clock (W := at_desk svc) home garmin_email garmin_password d2))
    as Hclock3.
  rewrite Hclock2 in Hclock3.
  pose proof (login_counts (W := at_desk svc) home
                garmin_email garmin_password d2) as (_ & Hn1 & _).
  fold login in Hn1.
  set (d3 := final (run (W := at_desk svc) login d2)) in *.
  destruct (returned (run (W := at_desk svc) login d2)) as [g' | e];
    [| cbn [log]; by apply no_notion_no_writes].
  pose proof (get_all_no_notion (W := at_desk svc) g' d3) as Hn2.
  destruct (returned (run (W := at_desk svc) (get_all_daily_steps g') d3))
    as [fetched | e] eqn:Hfetch';
    [| cbn [log]; apply no_notion_no_writes; by rewrite List.filter_app, Hn1, Hn2].
  destruct (same_day_fetch svc g' d3 today _ fetched Hclock3 Hfetch') as [-> _].
  fold daily_steps. cbn [log]. unfold writes. rewrite List.filter_app.
  fold (writes (log (run (W := at_desk svc) login d2) ++
                log (run (W := at_desk svc) (get_all_daily_steps g') d3))).
  rewrite (no_notion_no_writes (_ ++ _))
    by (by rewrite List.filter_app, Hn1, Hn2).
  by apply second_batch_is_quiet.
Qed.
End TwoRuns.

(** ** The further properties at sample inputs *)

(** X1 on a row that has its steps only. *)
Lemma stale_steps_hide_missing_properties_witness :
  properties Samples.steps_only_row !! "Step Goal" = None
  /\ steps_need_update Samples.steps_only_row Examples.may_day = Ok true
  /\ writes (log (run (W := Notion.db) (reconcile "db" Examples.may_day)
                    [Samples.steps_only_row])) =
       [Called (PagesUpdate "row-4" (update_properties Examples.may_day))].
Proof.
  split; [reflexivity |].
  exact (stale_steps_hide_missing_properties (W := Notion.db) "db"
           Examples.may_day [Samples.steps_only_row] [Samples.steps_only_row]
           Samples.steps_only_row [] (VInt 7000) eq_refl eq_refl eq_refl).
Defined.

(** X2 on a row without numbers. *)
Lemma missing_number_raises_key_error_witness :
  properties Samples.bare_row !! "Total Steps" = None
  /\ returned (run (W := Notion.db) (reconcile "db" Examples.may_day)
                 [Samples.bare_row]) = Err (KeyError "Total Steps")
  /\ writes (log (run (W := Notion.db) (reconcile "db" Examples.may_day)
                    [Samples.bare_row])) = [].
Proof.
  split; [reflexivity |].
  destruct (missing_number_raises_key_error (W := Notion.db) "db"
              Examples.may_day [Samples.bare_row] [Samples.bare_row]
              Samples.bare_row [] None eq_refl eq_refl
              (fun (v : value) (H : None = Some (Number v)) => ltac:(discriminate H)))
    as [_ Hrun].
  rewrite Hrun. split; reflexivity.
Defined.

(** X3 in a world that does not answer queries. *)
Lemma failed_call_ends_pass_witness :
  Failed (Error "NotImplementedError") ∈
    log (run (W := Garmin.at_desk Examples.svc) (reconcile "db" Examples.may_day)
           Examples.cached)
  /\ returned (run (W := Garmin.at_desk Examples.svc)
                 (reconcile "db" Examples.may_day) Examples.cached) =
       Err (Error "NotImplementedError").
Proof.
  assert (H : Failed (Error "NotImplementedError") ∈
              log (run (W := Garmin.at_desk Examples.svc)
                     (reconcile "db" Examples.may_day) Examples.cached)).
  { apply list_elem_of_In. right. left. reflexivity. }
  split; [exact H |].
  exact (proj1 (failed_call_ends_pass (W := Garmin.at_desk Examples.svc) "db"
                  Examples.may_day Examples.cached _ H)).
Defined.

(** X5 on a database whose row for the first of May has no numbers. *)
Lemma batch_stops_at_first_failure_witness :
  returned (run (W := Notion.db) (reconcile "db" Examples.may_day)
              [Samples.bare_row]) = Err (KeyError "Total Steps")
  /\ log (run (W := Notion.db)
            (reconcile_all "db" [Examples.may_day; Examples.no_distance])
            [Samples.bare_row]) =
       [Called (the_query "db" Examples.may_day)].
Proof.
  split; [reflexivity |].
  destruct (batch_stops_at_first_failure (W := Notion.db) "db" []
              Examples.may_day [Examples.no_distance] [Samples.bare_row]
              (KeyError "Total Steps") eq_refl eq_refl) as (_ & _ & Hlog).
  exact Hlog.
Defined.

(** X6 on a database with one row. *)
Lemma batch_keeps_invariant_witness :
  Notion.distinct_ids [Examples.stale_row]
  /\ Notion.one_row_per_day [Examples.stale_row]
  /\ Notion.one_row_per_day
       (final (run (W := Notion.db)
                 (reconcile_all "db" [Examples.may_day; Examples.no_distance])
                 [Examples.stale_row])).
Proof.
  assert (Hids : Notion.distinct_ids [Examples.stale_row])
    by apply NoDup_singleton.
  assert (Hone : Notion.one_row_per_day [Examples.stale_row]).
  { intros d. unfold Notion.walking_on. cbn [List.filter].
    destruct (Notion.matches _ _); simpl; lia. }
  split; [exact Hids |]. split; [exact Hone |].
  exact (proj2 (batch_keeps_invariant "db" [Examples.may_day; Examples.no_distance]
                  [Examples.stale_row] Hids Hone)).
Defined.

(** X7 on an empty database and the first of May. *)
Lemma second_batch_writes_nothing_witness :
  Notion.distinct_ids []
  /\ NoDup (dates [Examples.may_day])
  /\ no_nan [Examples.may_day]
  /\ writes (log (run (W := Notion.db) (reconcile_all "db" [Examples.may_day])
                    (final (run (W := Notion.db)
                              (reconcile_all "db" [Examples.may_day]) [])))) = [].
Proof.
  assert (Hids : Notion.distinct_ids []) by apply NoDup_nil_2.
  assert (Hdates : NoDup (dates [Examples.may_day])) by apply NoDup_singleton.
  assert (Hnan : no_nan [Examples.may_day]).
  { apply Forall_cons. split; [discriminate | apply Forall_nil_2]. }
  split; [exact Hids |]. split; [exact Hdates |]. split; [exact Hnan |].
  exact (proj1 (second_batch_writes_nothing "db" [Examples.may_day] []
                  Hids Hdates Hnan)).
Defined.

(** X8 on a row with 7000 steps: the update is read back. *)
Lemma written_values_are_read_back_witness :
  writes (log (run (W := Notion.db) (reconcile "db" Examples.may_day)
                 [Examples.stale_row])) <> []
  /\ exists (row : page) (others : list page),
       Notion.walking_on "2024-05-01"
         (final (run (W := Notion.db) (reconcile "db" Examples.may_day)
                   [Examples.stale_row])) = row :: others
       /\ properties row !! "Total Steps" = Some (Number (VInt 8000)).
Proof.
  assert (H : writes (log (run (W := Notion.db) (reconcile "db" Examples.may_day)
                             [Examples.stale_row])) <> [])
    by (vm_compute; discriminate).
  split; [exact H |].
  destruct (written_values_are_read_back "db" Examples.may_day
              [Examples.stale_row] H)
    as (row & others & Hq & _ & _ & Hsteps & _).
  exists row, others. split; [exact Hq | exact Hsteps].
Defined.

(** X11 on a row with an empty distance and an empty goal. *)
Lemma empty_stored_distance_is_always_stale_witness :
  totalDistance Examples.no_distance = None
  /\ steps_need_update Samples.row_without_distance Examples.no_distance = Ok true.
Proof.
  split; [reflexivity |].
  exact (proj1 (empty_stored_distance_is_always_stale Examples.no_distance
                  Samples.row_without_distance (VInt 8000) VNone
                  eq_refl eq_refl eq_refl)).
Defined.

(** X13 in a world where every call is interrupted. *)
Lemma interrupted_restore_ends_login_witness :
  returned (run (W := Samples.interrupted) (login_with_tokens "/home/u") tt) =
    Err KeyboardInterrupt
  /\ log (run (W := Samples.interrupted)
            (login_garmin_with_mfa "/home/u" "me@example.org" "secret") tt) =
       [Called (NewGarmin None None false); Failed KeyboardInterrupt].
Proof.
  split; [reflexivity |].
  destruct (interrupted_restore_ends_login (W := Samples.interrupted) "/home/u"
              "me@example.org" "secret" tt KeyboardInterrupt eq_refl eq_refl)
    as [Hrun _].
  rewrite Hrun. reflexivity.
Defined.

(** X14 with a clock that is set back between the readings. *)
Lemma fetch_stops_at_first_failure_witness :
  fst (respond (Garmin.at_desk Examples.svc) DateToday Samples.clock_set_back) =
    Ok Examples.may_2nd
  /\ returned (run (W := Garmin.at_desk Examples.svc) (get_all_daily_steps 0%nat)
                 Samples.clock_set_back) = Ok []
  /\ fetches (log (run (W := Garmin.at_desk Examples.svc)
                     (get_all_daily_steps 0%nat) Samples.clock_set_back)) = [].
Proof.
  split; [reflexivity |].
  destruct (fetch_stops_at_first_failure (W := Garmin.at_desk Examples.svc)
              0%nat Samples.clock_set_back _ _ Examples.may_2nd Examples.may_1st
              eq_refl eq_refl) as (_ & _ & Hback).
  destruct (decide (Examples.may_1st < Examples.may_2nd)) as [_ | Hno];
    [| by destruct Hno].
  rewrite Hback. split; reflexivity.
Defined.

(** X16 on the second of May. *)
Lemma fetched_records_come_in_day_order_witness :
  Garmin.clock Examples.logged_in = [Examples.may_2nd; Examples.may_2nd]
  /\ returned (run (W := Garmin.at_desk Samples.diary) (get_all_daily_steps 0%nat)
                 Examples.logged_in) = Ok [Examples.may_day].
Proof.
  split; [reflexivity |].
  exact (proj1 (fetched_records_come_in_day_order Samples.diary 0%nat 7%nat None
                  Examples.logged_in Examples.may_2nd Examples.may_2nd []
                  eq_refl eq_refl)).
Defined.

(** X17 on the second of May, from an empty database. *)
Lemma second_run_of_the_day_writes_nothing_witness :
  returned (run (W := Both.at_home Samples.diary)
              (main "/home/u" "me@example.org" "secret" "token" "db")
              (Samples.morning, [])) = Ok tt
  /\ length (snd (final (run (W := Both.at_home Samples.diary)
                           (main "/home/u" "me@example.org" "secret" "token" "db")
                           (Samples.morning, [])))) = 1%nat
  /\ writes (log (run (W := Both.at_home Samples.diary)
                    (main "/home/u" "me@example.org" "secret" "token" "db")
                    (final (run (W := Both.at_home Samples.diary)
                       (main "/home/u" "me@example.org" "secret" "token" "db")
                       (Samples.morning, []))))) = [].
Proof.
  assert (Hret : returned (run (W := Both.at_home Samples.diary)
              (main "/home/u" "me@example.org" "secret" "token" "db")
              (Samples.morning, [])) = Ok tt) by (vm_compute; reflexivity).
  split; [exact Hret |]. split; [vm_compute; reflexivity |].
  apply (second_run_of_the_day_writes_nothing Samples.diary "/home/u"
           "me@example.org" "secret" "token" "db" Samples.morning []
           Examples.may_2nd []).
  - apply NoDup_nil_2.
  - reflexivity.
  - apply NoDup_singleton.
  - apply Forall_cons. split; [discriminate | apply Forall_nil_2].
  - exact Hret.
Defined.
